(** * go.static: hashed static asset URLs

    A shallow embedding of package [static] (github.com/daaku/go.static):
    the resolver [CombinedURL] / [URL], which reads files, hashes their
    concatenation with MD5 and records the bytes in the process-wide
    [cache] map, and the dispatcher [Handle], which serves a request from
    that map.  The earlier, cache-less revision of the package is embedded
    in module [Direct].

    Go strings are byte sequences and are modelled by [string]; [[]byte]
    values are modelled by [list byte]. *)

From Stdlib Require Import ZArith List Lia Bool.
From Stdlib.Strings Require Import String Ascii Byte.
From Stdlib Require Import DecimalString.
From stdpp Require Import base option gmap strings.

Import ListNotations.
Local Open Scope Z_scope.
Local Open Scope string_scope.

Abbreviation bytes := (list byte).

(** ** crypto/md5 (RFC 1321) on 32-bit words held in [Z] *)
Module md5.

Definition mask32 : Z := 0xFFFFFFFF.
Definition w32 (x : Z) : Z := Z.land x mask32.
Definition add32 (x y : Z) : Z := w32 (x + y).
Definition not32 (x : Z) : Z := Z.lxor x mask32.
Definition rotl32 (x : Z) (s : Z) : Z :=
  w32 (Z.lor (Z.shiftl x s) (Z.shiftr x (32 - s))).

Definition F (x y z : Z) : Z := Z.lor (Z.land x y) (Z.land (not32 x) z).
Definition G (x y z : Z) : Z := Z.lor (Z.land x z) (Z.land y (not32 z)).
Definition H (x y z : Z) : Z := Z.lxor (Z.lxor x y) z.
Definition I (x y z : Z) : Z := Z.lxor y (Z.lor x (not32 z)).

(** Per-round left-rotation amounts. *)
Definition shifts : list Z :=
  [ 7; 12; 17; 22;  7; 12; 17; 22;  7; 12; 17; 22;  7; 12; 17; 22;
    5;  9; 14; 20;  5;  9; 14; 20;  5;  9; 14; 20;  5;  9; 14; 20;
    4; 11; 16; 23;  4; 11; 16; 23;  4; 11; 16; 23;  4; 11; 16; 23;
    6; 10; 15; 21;  6; 10; 15; 21;  6; 10; 15; 21;  6; 10; 15; 21 ].

(** [floor (2^32 * abs (sin (i + 1)))] for [i] in [0..63]. *)
Definition sines : list Z :=
  [ 0xd76aa478; 0xe8c7b756; 0x242070db; 0xc1bdceee;
    0xf57c0faf; 0x4787c62a; 0xa8304613; 0xfd469501;
    0x698098d8; 0x8b44f7af; 0xffff5bb1; 0x895cd7be;
    0x6b901122; 0xfd987193; 0xa679438e; 0x49b40821;
    0xf61e2562; 0xc040b340; 0x265e5a51; 0xe9b6c7aa;
    0xd62f105d; 0x02441453; 0xd8a1e681; 0xe7d3fbc8;
    0x21e1cde6; 0xc33707d6; 0xf4d50d87; 0x455a14ed;
    0xa9e3e905; 0xfcefa3f8; 0x676f02d9; 0x8d2a4c8a;
    0xfffa3942; 0x8771f681; 0x6d9d6122; 0xfde5380c;
    0xa4beea44; 0x4bdecfa9; 0xf6bb4b60; 0xbebfbc70;
    0x289b7ec6; 0xeaa127fa; 0xd4ef3085; 0x04881d05;
    0xd9d4d039; 0xe6db99e5; 0x1fa27cf8; 0xc4ac5665;
    0xf4292244; 0x432aff97; 0xab9423a7; 0xfc93a039;
    0x655b59c3; 0x8f0ccc92; 0xffeff47d; 0x85845dd1;
    0x6fa87e4f; 0xfe2ce6e0; 0xa3014314; 0x4e0811a1;
    0xf7537e82; 0xbd3af235; 0x2ad7d2bb; 0xeb86d391 ].

Record digest := Digest { dA : Z; dB : Z; dC : Z; dD : Z }.

Definition init : digest :=
  Digest 0x67452301 0xefcdab89 0x98badcfe 0x10325476.

(** One of the 64 operations of a block; [m] holds the block's sixteen
    little-endian words. *)
Definition step (m : list Z) (st : digest) (i : nat) : digest :=
  let '(Digest a b c d) := st in
  let '(f, g) :=
    if (i <? 16)%nat then (F b c d, i)
    else if (i <? 32)%nat then (G b c d, (5 * i + 1) mod 16)%nat
    else if (i <? 48)%nat then (H b c d, (3 * i + 5) mod 16)%nat
    else (I b c d, (7 * i) mod 16)%nat in
  let f' := add32 (add32 (add32 f a) (nth i sines 0)) (nth g m 0) in
  Digest d (add32 b (rotl32 f' (nth i shifts 0))) b c.

Definition le_word (b0 b1 b2 b3 : byte) : Z :=
  Z.of_N (Byte.to_N b0) + Z.shiftl (Z.of_N (Byte.to_N b1)) 8
  + Z.shiftl (Z.of_N (Byte.to_N b2)) 16 + Z.shiftl (Z.of_N (Byte.to_N b3)) 24.

Fixpoint words (bs : bytes) : list Z :=
  match bs with
  | b0 :: b1 :: b2 :: b3 :: rest => le_word b0 b1 b2 b3 :: words rest
  | _ => []
  end.

Definition block (st : digest) (blk : bytes) : digest :=
  let m := words blk in
  let '(Digest a b c d) := fold_left (step m) (seq 0 64) st in
  Digest (add32 (dA st) a) (add32 (dB st) b) (add32 (dC st) c) (add32 (dD st) d).

Definition byte_of_Z (x : Z) : byte :=
  match Byte.of_N (Z.to_N (Z.land x 0xFF)) with
  | Some b => b
  | None => x00
  end.

Definition le_bytes (n : nat) (x : Z) : bytes :=
  map (fun k => byte_of_Z (Z.shiftr x (8 * Z.of_nat k))) (seq 0 n).

(** Padding: a single 0x80, zeros up to 56 mod 64, then the bit length
    as a 64-bit little-endian integer. *)
Definition pad (msg : bytes) : bytes :=
  let len := Z.of_nat (length msg) in
  let zeros := Z.to_nat ((55 - len) mod 64) in
  msg ++ x80 :: repeat x00 zeros ++ le_bytes 8 (w32 (8 * len) + Z.shiftl (w32 (Z.shiftr (8 * len) 32)) 32).

Fixpoint blocks (fuel : nat) (st : digest) (bs : bytes) : digest :=
  match fuel, bs with
  | S fuel', _ :: _ => blocks fuel' (block st (firstn 64 bs)) (skipn 64 bs)
  | _, _ => st
  end.

(** The 16-byte checksum of [msg]. *)
Definition sum (msg : bytes) : bytes :=
  let p := pad msg in
  let '(Digest a b c d) := blocks (length p) init p in
  le_bytes 4 a ++ le_bytes 4 b ++ le_bytes 4 c ++ le_bytes 4 d.

End md5.

(** ** fmt.Sprintf("%x", b): lower-case hexadecimal, two digits a byte *)
Definition hexdigit (n : N) : ascii :=
  ascii_of_N (if (n <? 10)%N then 48 + n else 87 + n)%N.

Fixpoint hex (b : bytes) : string :=
  match b with
  | [] => ""
  | x :: rest =>
      let n := Byte.to_N x in
      String (hexdigit (n / 16)%N) (String (hexdigit (n mod 16)%N) (hex rest))
  end.

Definition bytes_of_string (s : string) : bytes := list_byte_of_string s.

(** ** package strings *)
Module strings.

Definition HasPrefix (s pre : string) : bool := String.prefix pre s.

(** [Split s sep] for a one-byte separator, the only kind the package
    uses: all substrings between separators; [Split "" sep = [""]]. *)
Fixpoint Split (s : string) (sep : ascii) : list string :=
  match s with
  | EmptyString => [""]
  | String c s' =>
      if Ascii.eqb c sep then "" :: Split s' sep
      else match Split s' sep with
           | hd :: tl => String c hd :: tl
           | [] => [String c ""]
           end
  end.

Definition Join (elems : list string) (sep : string) : string :=
  String.concat sep elems.

End strings.

(** ** package path (and path/filepath with separator '/') *)
Module path.

Definition slash : ascii := "/"%char.

(** One path element read by [Clean].  [out] is the stack of elements
    written so far, innermost first; the [dotdot] bottom-most of them are
    leading ".." elements that cannot be backtracked over. *)
Definition clean_elem (rooted : bool) (st : list string * nat) (e : string)
  : list string * nat :=
  let '(out, dotdot) := st in
  if String.eqb e "" then st
  else if String.eqb e "." then st
  else if String.eqb e ".." then
    if (dotdot <? length out)%nat then (tl out, dotdot)
    else if rooted then st
    else (".." :: out, S (length out))
  else (e :: out, dotdot).

(** [path.Clean]: the shortest path equivalent to [p] by purely lexical
    processing, computed element by element. *)
Definition Clean (p : string) : string :=
  match p with
  | EmptyString => "."
  | String c _ =>
      let rooted := Ascii.eqb c slash in
      let out := rev (fst (fold_left (clean_elem rooted) (strings.Split p slash) ([], 0%nat))) in
      if rooted then "/" ++ strings.Join out "/"
      else match out with
           | [] => "."
           | _ => strings.Join out "/"
           end
  end.

Fixpoint drop_empty (elem : list string) : list string :=
  match elem with
  | e :: rest => if String.eqb e "" then drop_empty rest else elem
  | [] => []
  end.

(** [path.Join]: the elements from the first non-empty one on, separated
    by slashes, then cleaned; the empty string when all are empty. *)
Definition Join (elem : list string) : string :=
  match drop_empty elem with
  | [] => ""
  | es => Clean (strings.Join es "/")
  end.

End path.

Module filepath.

Fixpoint trimRightSlashes (s : string) : string :=
  match s with
  | EmptyString => ""
  | String c s' =>
      let t := trimRightSlashes s' in
      if Ascii.eqb c path.slash && String.eqb t "" then "" else String c t
  end.

(** [filepath.Base]: the last element of the path, trailing slashes
    removed first; "." for the empty path, "/" for a path of slashes. *)
Definition Base (p : string) : string :=
  if String.eqb p "" then "."
  else
    let e := List.last (strings.Split (trimRightSlashes p) path.slash) "" in
    if String.eqb e "" then "/" else e.

End filepath.

(** ** package time: instants and durations in nanoseconds; the zero
    [Time] is the origin *)
Module time.

Definition Time := Z.
Definition Duration := Z.
Definition zero : Time := 0.
Definition Second : Duration := 1000000000.
Definition Hour : Duration := (3600 * Second)%Z.
Definition Before (t u : Time) : bool := (t <? u)%Z.
Definition IsZero (t : Time) : bool := (t =? zero)%Z.
Definition Add (t : Time) (d : Duration) : Time := (t + d)%Z.

End time.

Definition error := string.

(** The two ways a Range header can fail to parse. *)
Inductive rangeError :=
  | errNoOverlap      (* "invalid range: failed to overlap" *)
  | errInvalidRange.  (* "invalid range" *)

(** What the package leaves to the Go runtime and its host. *)
Class Platform := {
  (** [int(d.Seconds())]: a duration as a whole number of seconds, through
      a float64 *)
  whole_seconds : time.Duration -> Z;
  (** the Content-Type [http.ServeContent] picks from the extension of a
      name or, failing that, from the first bytes of the content *)
  mime_type : string -> bytes -> string;
  (** [http.ParseTime] on a non-empty string *)
  parse_http_date : string -> option time.Time;
  (** [t.UTC().Format(http.TimeFormat)] *)
  format_http_date : time.Time -> string;
  (** the byte ranges (start, length) of a non-empty Range header for a
      content of the given size *)
  parse_byte_ranges : string -> Z -> rangeError + list (Z * Z);
  (** whether a non-empty If-Match list holds "*" or an entity tag that
      matches, strongly, the Etag of the response *)
  if_match : string -> string -> bool;
  (** whether a non-empty If-None-Match list holds "*" or an entity tag
      that matches, weakly, the Etag of the response *)
  if_none_match : string -> string -> bool;
  (** for an If-Range value that starts with an entity tag, whether the
      tag matches, strongly, the Etag of the response; [None] for a value
      without a tag *)
  if_range_etag : string -> string -> option bool;
  (** the multipart/byteranges answer to several ranges: the boundary
      drawn and the body, whose parts give the range and, as their
      Content-Type, the type handed in *)
  multipart_byteranges : list (Z * Z) -> string -> bytes -> string * bytes;
}.

(** [%d] *)
Definition itoa (n : Z) : string := NilZero.string_of_int (Z.to_int n).

(** ** package os / net/http: files *)
Module os.

Record FileInfo := {
  Name : string;
  ModTime : time.Time;
  IsDir : bool;
}.

End os.

Module http.

(** An open [http.File]: what [Stat] answers and what [ioutil.ReadAll]
    returns for it (the bytes read and the error that stopped the read,
    if any). *)
Record File := {
  Stat : error + os.FileInfo;
  ReadAll : bytes * option error;
}.

(** [http.FileSystem]: the outcome of [Open] for each name. *)
Definition FileSystem := string -> error + File.

(** [http.Header] restricted to [Set] and [Get]: one value a key. *)
Abbreviation Header := (gmap string string).

Definition Get (h : Header) (key : string) : string := default "" (h !! key).

Record Request := {
  Method : string;
  URLPath : string;
  ReqHeader : Header;
}.

(** A [http.ResponseWriter] as [httptest.ResponseRecorder] records it:
    the header map, the status code once written, the body written. *)
Record ResponseWriter := {
  RespHeader : Header;
  Code : option Z;
  Body : bytes;
}.

Definition Set_ (w : ResponseWriter) (key value : string) : ResponseWriter :=
  {| RespHeader := <[key := value]> (RespHeader w); Code := Code w; Body := Body w |}.

Definition WriteHeader (w : ResponseWriter) (code : Z) : ResponseWriter :=
  match Code w with
  | Some _ => w
  | None => {| RespHeader := RespHeader w; Code := Some code; Body := Body w |}
  end.

Definition Write (w : ResponseWriter) (b : bytes) : ResponseWriter :=
  let w := WriteHeader w 200 in
  {| RespHeader := RespHeader w; Code := Code w; Body := (Body w ++ b)%list |}.

Definition Del (w : ResponseWriter) (key : string) : ResponseWriter :=
  {| RespHeader := delete key (RespHeader w); Code := Code w; Body := Body w |}.

Definition StatusOK : Z := 200.
Definition StatusPartialContent : Z := 206.
Definition StatusNotModified : Z := 304.
Definition StatusPreconditionFailed : Z := 412.
Definition StatusRequestedRangeNotSatisfiable : Z := 416.

Definition Error (w : ResponseWriter) (msg : string) (code : Z) : ResponseWriter :=
  let w := Set_ w "Content-Type" "text/plain; charset=utf-8" in
  let w := Set_ w "X-Content-Type-Options" "nosniff" in
  let w := WriteHeader w code in
  Write w (bytes_of_string (msg ++ String "010"%char "")).

(** The instant 1970-01-01 00:00:00 UTC, counted from year 1. *)
Definition unixEpochTime : time.Time := (62135596800 * time.Second)%Z.

(** A modification time that stands for "unknown". *)
Definition isZeroTime (t : time.Time) : bool :=
  time.IsZero t || (t =? unixEpochTime)%Z.

(** [t.Truncate(time.Second)] *)
Definition truncateSecond (t : time.Time) : time.Time := (t - t mod time.Second)%Z.

(** The outcome of one precondition of RFC 7232. *)
Inductive condResult := condNone | condTrue | condFalse.

Section ServeContent.
Context `{Platform}.

Definition parseTime (s : string) : option time.Time :=
  if String.eqb s "" then None else parse_http_date s.

Definition parseRange (s : string) (size : Z) : rangeError + list (Z * Z) :=
  if String.eqb s "" then inr [] else parse_byte_ranges s size.

Definition isGetOrHead (r : Request) : bool :=
  String.eqb (Method r) "GET" || String.eqb (Method r) "HEAD".

Definition setLastModified (w : ResponseWriter) (modtime : time.Time) : ResponseWriter :=
  if isZeroTime modtime then w
  else Set_ w "Last-Modified" (format_http_date modtime).

Definition checkIfMatch (w : ResponseWriter) (r : Request) : condResult :=
  let im := Get (ReqHeader r) "If-Match" in
  if String.eqb im "" then condNone
  else if if_match im (Get (RespHeader w) "Etag") then condTrue
  else condFalse.

Definition checkIfUnmodifiedSince (r : Request) (modtime : time.Time) : condResult :=
  let ius := Get (ReqHeader r) "If-Unmodified-Since" in
  if String.eqb ius "" || isZeroTime modtime then condNone
  else
    match parseTime ius with
    | None => condNone
    | Some t => if (truncateSecond modtime <=? t)%Z then condTrue else condFalse
    end.

Definition checkIfNoneMatch (w : ResponseWriter) (r : Request) : condResult :=
  let inm := Get (ReqHeader r) "If-None-Match" in
  if String.eqb inm "" then condNone
  else if if_none_match inm (Get (RespHeader w) "Etag") then condFalse
  else condTrue.

Definition checkIfModifiedSince (r : Request) (modtime : time.Time) : condResult :=
  if negb (isGetOrHead r) then condNone
  else
    let ims := Get (ReqHeader r) "If-Modified-Since" in
    if String.eqb ims "" || isZeroTime modtime then condNone
    else
      match parseTime ims with
      | None => condNone
      | Some t => if (truncateSecond modtime <=? t)%Z then condFalse else condTrue
      end.

Definition checkIfRange (w : ResponseWriter) (r : Request) (modtime : time.Time)
  : condResult :=
  if negb (isGetOrHead r) then condNone
  else
    let ir := Get (ReqHeader r) "If-Range" in
    if String.eqb ir "" then condNone
    else
      match if_range_etag ir (Get (RespHeader w) "Etag") with
      | Some matches => if matches then condTrue else condFalse
      | None =>
          if time.IsZero modtime then condFalse
          else
            match parseTime ir with
            | None => condFalse
            | Some t =>
                if (t / time.Second =? modtime / time.Second)%Z then condTrue
                else condFalse
            end
      end.

Definition writeNotModified (w : ResponseWriter) : ResponseWriter :=
  let w := Del w "Content-Type" in
  let w := Del w "Content-Length" in
  let w := Del w "Content-Encoding" in
  let w := if String.eqb (Get (RespHeader w) "Etag") "" then w
           else Del w "Last-Modified" in
  WriteHeader w StatusNotModified.

(** The preconditions of RFC 7232, section 6: the response, whether it
    is complete (412 or 304 written), and the Range header left to
    serve. *)
Definition checkPreconditions (w : ResponseWriter) (r : Request) (modtime : time.Time)
  : ResponseWriter * bool * string :=
  let ch := match checkIfMatch w r with
            | condNone => checkIfUnmodifiedSince r modtime
            | ch => ch
            end in
  let ranges :=
    let rangeHeader := Get (ReqHeader r) "Range" in
    match checkIfRange w r modtime with
    | condFalse => (w, false, "")
    | _ => (w, false, rangeHeader)
    end in
  match ch with
  | condFalse => (WriteHeader w StatusPreconditionFailed, true, "")
  | _ =>
      match checkIfNoneMatch w r with
      | condFalse =>
          if isGetOrHead r then (writeNotModified w, true, "")
          else (WriteHeader w StatusPreconditionFailed, true, "")
      | condNone =>
          match checkIfModifiedSince r modtime with
          | condFalse => (writeNotModified w, true, "")
          | _ => ranges
          end
      | condTrue => ranges
      end
  end.

Definition sumRangesSize (ranges : list (Z * Z)) : Z :=
  fold_left (fun size ra => (size + snd ra)%Z) ranges 0%Z.

(** The part of [http.ServeContent] that sends the content: the whole of
    it, one byte range of it, or several ranges as multipart/byteranges
    whose parts carry the Content-Type [ctype]; no body for HEAD. *)
Definition serveRanges (w : ResponseWriter) (r : Request) (rangeReq : string)
    (ctype : string) (content : bytes) : ResponseWriter :=
  let size := Z.of_nat (length content) in
  let parsed :=
    match parseRange rangeReq size with
    | inr ranges => inr ranges
    | inl errNoOverlap =>
        if (size =? 0)%Z then inr []
        else inl (Set_ w "Content-Range" ("bytes */" ++ itoa size),
                  "invalid range: failed to overlap")
    | inl errInvalidRange => inl (w, "invalid range")
    end in
  match parsed with
  | inl (w, msg) => Error w msg StatusRequestedRangeNotSatisfiable
  | inr ranges =>
      let ranges := if (size <? sumRangesSize ranges)%Z then [] else ranges in
      let '(w, code, sendSize, sendContent) :=
        match ranges with
        | [] => (w, StatusOK, size, content)
        | [(start, len)] =>
            (Set_ w "Content-Range"
               ("bytes " ++ itoa start ++ "-" ++ itoa (start + len - 1) ++ "/" ++ itoa size),
             StatusPartialContent, len, skipn (Z.to_nat start) content)
        | _ =>
            let '(boundary, body) := multipart_byteranges ranges ctype content in
            (Set_ w "Content-Type" ("multipart/byteranges; boundary=" ++ boundary),
             StatusPartialContent, Z.of_nat (length body), body)
        end in
      let w := Set_ w "Accept-Ranges" "bytes" in
      let w := if String.eqb (Get (RespHeader w) "Content-Encoding") ""
               then Set_ w "Content-Length" (itoa sendSize) else w in
      let w := WriteHeader w code in
      if String.eqb (Method r) "HEAD" then w
      else Write w (firstn (Z.to_nat sendSize) sendContent)
  end.

(** [http.ServeContent] over an in-memory, seekable content, as net/http
    has it since Go 1.8: Last-Modified, the preconditions, Content-Type
    from [name] unless the handler set one, then the content or ranges of
    it. *)
Definition ServeContent (w : ResponseWriter) (r : Request) (name : string)
    (modtime : time.Time) (content : bytes) : ResponseWriter :=
  let w := setLastModified w modtime in
  let '(w, done, rangeReq) := checkPreconditions w r modtime in
  if done then w
  else
    let '(w, ctype) :=
      match RespHeader w !! "Content-Type" with
      | None => let ctype := mime_type name content in
                (Set_ w "Content-Type" ctype, ctype)
      | Some ctype => (w, ctype)
      end in
    serveRanges w r rangeReq ctype content.

End ServeContent.

End http.

(** [hash.Hash] as [md5.New] returns it: [Write] adds to the running
    hash and never fails; [Sum] appends the checksum of all that was
    written. *)
Module hash.

Record Hash := { written : bytes }.
Definition New : Hash := {| written := [] |}.
Definition Write (h : Hash) (p : bytes) : Hash * (nat * option error) :=
  ({| written := (written h ++ p)%list |}, (length p, None)).
Definition Sum (h : Hash) (b : bytes) : bytes := (b ++ md5.sum (written h))%list.

End hash.

(** ** package static (static.go) *)

Definition Path : string := "/static/".

Record cacheEntry := {
  Content : bytes;
  ModTime : time.Time;
}.

(** The package-level variables: both flags, the file system installed by
    [SetDir] and the table of resolved contents. *)
Record Globals := {
  cacheMaxAge : time.Duration;
  cacheEnable : bool;
  fileSystem : http.FileSystem;
  cache : gmap string cacheEntry;
}.

(** Functions of the package run against the package-level variables. *)
Definition M (A : Type) : Type := Globals -> A * Globals.

Definition ret {A} (a : A) : M A := fun g => (a, g).
Definition bind {A B} (m : M A) (k : A -> M B) : M B :=
  fun g => let '(a, g') := m g in k a g'.
Definition gets {A} (proj : Globals -> A) : M A := fun g => (proj g, g).
Definition set_cache (key : string) (ce : cacheEntry) : M unit :=
  fun g => (tt, {| cacheMaxAge := cacheMaxAge g; cacheEnable := cacheEnable g;
                   fileSystem := fileSystem g; cache := <[key := ce]> (cache g) |}).

Notation "'do' x <- m ; k" := (bind m (fun x => k))
  (at level 10, x name, m at level 100, k at level 200).

(** The default of flag static.max-age. *)
Definition cacheMaxAge_default : time.Duration := (time.Hour * 87658)%Z.

Definition notFound (w : http.ResponseWriter) (r : http.Request) : http.ResponseWriter :=
  let w := http.Set_ w "Cache-Control" "no-cache" in
  let w := http.Set_ w "Pragma" "no-cache" in
  let w := http.WriteHeader w 404 in
  http.Write w (bytes_of_string "static resource not found!").

Definition joinBasenames (names : list string) : string :=
  strings.Join (map filepath.Base names) "-".

(** The loop of [CombinedURL]: the running hash and the entry under
    construction after all [names], or the first error met. *)
Fixpoint CombinedURL_loop (fs : http.FileSystem) (names : list string)
    (h : hash.Hash) (ce : cacheEntry) : error + (hash.Hash * cacheEntry) :=
  match names with
  | [] => inr (h, ce)
  | name :: rest =>
      match fs name with
      | inl err => inl err
      | inr f =>
          match http.Stat f with
          | inl err => inl err
          | inr stat =>
              let modTime := os.ModTime stat in
              let ce := if time.Before (ModTime ce) modTime
                        then {| Content := Content ce; ModTime := modTime |} else ce in
              match http.ReadAll f with
              | (_, Some err) => inl err
              | (content, None) =>
                  let ce := {| Content := (Content ce ++ content)%list; ModTime := ModTime ce |} in
                  match hash.Write h content with
                  | (_, (_, Some err)) => inl err
                  | (h, (_, None)) => CombinedURL_loop fs rest h ce
                  end
              end
          end
      end
  end.

(** Get a hashed combined URL for all named files. *)
Definition CombinedURL (names : list string) : M (string * option error) :=
  do fs <- gets fileSystem;
  match CombinedURL_loop fs names hash.New {| Content := []; ModTime := time.zero |} with
  | inl err => ret ("", Some err)
  | inr (h, ce) =>
      let hex := hex (hash.Sum h []) in
      let hexS := substring 0 10 hex in
      let url := path.Join [Path; hexS; joinBasenames names] in
      do _u <- set_cache hexS ce;
      ret (url, None)
  end.

(** Get a hashed URL for a single file. *)
Definition URL (name : string) : M (string * option error) :=
  CombinedURL [name].

Section Handle.
Context `{Platform}.

(** Serves the static resource. *)
Definition Handle (w : http.ResponseWriter) (r : http.Request) : M http.ResponseWriter :=
  let path := http.URLPath r in
  if negb (strings.HasPrefix path Path) then ret (notFound w r)
  else
    let parts := strings.Split path "/" in
    if (length parts <? 3)%nat then ret (notFound w r)
    else
      do c <- gets cache;
      match c !! nth 2 parts "" with
      | None => ret (notFound w r)
      | Some ce =>
          do maxAge <- gets cacheMaxAge;
          let w := http.Set_ w "Cache-Control"
                     ("public, max-age=" ++ itoa (whole_seconds maxAge)) in
          ret (http.ServeContent w r path (ModTime ce) (Content ce))
      end.

End Handle.

(** ** The cache-less revision of the package (src/unnamed/part_000) *)
Module Direct.

(** Get a hashed URL for a named file. *)
Definition URL (name : string) : M (string * option error) :=
  do fs <- gets fileSystem;
  match fs name with
  | inl err => ret ("", Some err)
  | inr f =>
      let h := hash.New in
      match http.ReadAll f with
      | (_, Some err) => ret ("", Some err)
      | (content, None) =>
          match hash.Write h content with
          | (_, (_, Some err)) => ret ("", Some err)
          | (h, (_, None)) =>
              let hex := hex (hash.Sum h []) in
              let url := path.Join [Path; substring 0 10 hex; name] in
              ret (url, None)
          end
      end
  end.

Section Handle.
Context `{Platform}.

(** Serves the static resource. *)
Definition Handle (w : http.ResponseWriter) (r : http.Request) : M http.ResponseWriter :=
  let path := http.URLPath r in
  if negb (strings.HasPrefix path Path) then ret (notFound w r)
  else
    let parts := strings.Split path "/" in
    if (length parts <? 3)%nat then ret (notFound w r)
    else
      let newPath := strings.Join (skipn 3 parts) "/" in
      do fs <- gets fileSystem;
      match fs newPath with
      | inl _ => ret (notFound w r)
      | inr f =>
          match http.Stat f with
          | inl _ => ret (notFound w r)
          | inr d =>
              if os.IsDir d then ret (notFound w r)
              else
                do maxAge <- gets cacheMaxAge;
                let w := http.Set_ w "Cache-Control"
                           ("public, max-age=" ++ itoa (whole_seconds maxAge)) in
                ret (http.ServeContent w r (os.Name d) (os.ModTime d) (fst (http.ReadAll f)))
          end
      end.

End Handle.

End Direct.

(** ** The markup helpers of static.go *)

(** The values of package h (github.com/daaku/go.h) that the helpers
    build. *)
Module h.

Inductive HTML :=
  | LinkStyle (HREF : string)
  | Script (Src : string)
  | Node (Tag : string) (SelfClosing : bool) (Attributes : gmap string string).

End h.

(** A method with a pointer receiver returns the receiver as it leaves
    it, next to its results. *)
Module LinkStyle.

Record t := {
  HREF : list string;
  cache : option h.HTML;
}.

Definition HTML (l : t) : M (t * (option h.HTML * option error)) :=
  do enable <- gets cacheEnable;
  if negb enable || match cache l with None => true | Some _ => false end then
    do res <- CombinedURL (HREF l);
    match res with
    | (_, Some err) => ret (l, (None, Some err))
    | (url, None) =>
        let l := {| HREF := HREF l; cache := Some (h.LinkStyle url) |} in
        ret (l, (cache l, None))
    end
  else ret (l, (cache l, None)).

End LinkStyle.

Module Script.

Record t := {
  Src : list string;
  cache : option h.HTML;
}.

Definition HTML (l : t) : M (t * (option h.HTML * option error)) :=
  do enable <- gets cacheEnable;
  if negb enable || match cache l with None => true | Some _ => false end then
    do res <- CombinedURL (Src l);
    match res with
    | (_, Some err) => ret (l, (None, Some err))
    | (url, None) =>
        let l := {| Src := Src l; cache := Some (h.Script url) |} in
        ret (l, (cache l, None))
    end
  else ret (l, (cache l, None)).

(** For github.com/daaku/go.h.js.loader compatibility; [inl err] is
    [panic(err)]. *)
Definition URLs (l : t) : M (error + list string) :=
  do res <- CombinedURL (Src l);
  match res with
  | (_, Some err) => ret (inl err)
  | (url, None) => ret (inr [url])
  end.

(** For github.com/daaku/go.h.js.loader compatibility. *)
Definition Script (l : t) : string := "".

End Script.

Module Img.

Record t := {
  ID : string;
  Class : string;
  Style : string;
  Src : string;
  Alt : string;
  cache : option h.HTML;
}.

Definition HTML (i : t) : M (t * (option h.HTML * option error)) :=
  do enable <- gets cacheEnable;
  if negb enable || match cache i with None => true | Some _ => false end then
    do res <- URL (Src i);
    match res with
    | (_, Some err) => ret (i, (None, Some err))
    | (src, None) =>
        let node :=
          h.Node "img" true
            (<["id" := ID i]> (<["class" := Class i]> (<["style" := Style i]>
               (<["src" := src]> (<["alt" := Alt i]> ∅))))) in
        let i := {| ID := ID i; Class := Class i; Style := Style i; Src := Src i;
                    Alt := Alt i; cache := Some node |} in
        ret (i, (cache i, None))
    end
  else ret (i, (cache i, None)).

End Img.

(** The helper of the cache-less revision (src/unnamed/part_000). *)
Module DirectLinkStyle.

Record t := {
  HREF : string;
  cache : option h.HTML;
}.

Definition HTML (l : t) : M (t * (option h.HTML * option error)) :=
  match cache l with
  | None =>
      do res <- Direct.URL (HREF l);
      match res with
      | (_, Some err) => ret (l, (None, Some err))
      | (url, None) =>
          let l := {| HREF := HREF l; cache := Some (h.LinkStyle url) |} in
          ret (l, (cache l, None))
      end
  | Some _ => ret (l, (cache l, None))
  end.

End DirectLinkStyle.

(** ** SetDir *)

(** [http.Dir] over the [os.Open] of the host, given as [open]: the name
    is cleaned as a rooted path and joined to the directory. *)
Definition Dir (open : string -> error + http.File) (dir : string) : http.FileSystem :=
  fun name =>
    let dir := if String.eqb dir "" then "." else dir in
    open (path.Join [dir; path.Clean ("/" ++ name)]).

(** Set the resources directory. *)
Definition SetDir (open : string -> error + http.File) (publicDir : string) : M unit :=
  fun g => (tt, {| cacheMaxAge := cacheMaxAge g; cacheEnable := cacheEnable g;
                   fileSystem := Dir open publicDir; cache := cache g |}).

(** ** Sample data *)

Definition regular (name : string) (mtime : time.Time) (content : string) : http.File :=
  {| http.Stat := inr {| os.Name := name; os.ModTime := mtime; os.IsDir := false |};
     http.ReadAll := (bytes_of_string content, None) |}.

(** Sun, 06 Nov 1994 08:49:37 GMT, counted from year 1. *)
Definition date_1994 : time.Time := ((62135596800 + 784111777) * time.Second)%Z.

Fixpoint ends_with (suffix s : string) : bool :=
  String.eqb s suffix
  || match s with
     | EmptyString => false
     | String _ s' => ends_with suffix s'
     end.

Definition crlf : string := String "013"%char (String "010"%char "").

(** One part of a multipart/byteranges body. *)
Definition byterange_part (boundary ctype : string) (content : bytes) (ra : Z * Z) : bytes :=
  let '(start, len) := ra in
  (bytes_of_string
     ("--" ++ boundary ++ crlf
      ++ "Content-Range: bytes " ++ itoa start ++ "-" ++ itoa (start + len - 1)
      ++ "/" ++ itoa (Z.of_nat (length content)) ++ crlf
      ++ "Content-Type: " ++ ctype ++ crlf ++ crlf)
   ++ firstn (Z.to_nat len) (skipn (Z.to_nat start) content)
   ++ bytes_of_string crlf)%list.

(** An entity tag starts with a double quote or with W/. *)
Definition starts_with_etag (s : string) : bool :=
  match s with
  | String c _ => Ascii.eqb c "034"%char || Ascii.eqb c "W"%char
  | EmptyString => false
  end.

(** A host for the examples: whole seconds by division, three types by
    extension, one date, the Range header bytes=0-0,1-1, single entity
    tags compared as written, and the boundary 7d2f. *)
#[local] Instance sample_platform : Platform := {|
  whole_seconds d := Z.quot d time.Second;
  mime_type name _ :=
    if ends_with ".css" name then "text/css; charset=utf-8"
    else if ends_with ".js" name then "text/javascript; charset=utf-8"
    else "text/plain; charset=utf-8";
  parse_http_date s :=
    if String.eqb s "Sun, 06 Nov 1994 08:49:37 GMT" then Some date_1994 else None;
  format_http_date _ := "Sun, 06 Nov 1994 08:49:37 GMT";
  parse_byte_ranges s size :=
    if String.eqb s "bytes=0-0,1-1"
    then (if (size <? 2)%Z then inl errNoOverlap else inr [(0, 1); (1, 1)])
    else inl errInvalidRange;
  if_match im etag := String.eqb im "*" || String.eqb im etag;
  if_none_match inm etag := String.eqb inm "*" || String.eqb inm etag;
  if_range_etag ir etag :=
    if starts_with_etag ir then Some (String.eqb ir etag) else None;
  multipart_byteranges ranges ctype content :=
    ("7d2f",
     (concat (map (byterange_part "7d2f" ctype content) ranges)
      ++ bytes_of_string ("--7d2f--" ++ crlf))%list);
|}.

Definition no_such_file : error := "open: no such file or directory".

(** A directory holding a.js ("1") and js/b.js ("2").  As [http.Dir]
    does, it cleans a name before it opens it, so that a.js/x/.. and
    a.js/. name a.js too. *)
Definition fs_ab : http.FileSystem := fun name =>
  match path.Clean ("/" ++ name) with
  | "/a.js" => inr (regular "a.js" date_1994 "1")
  | "/js/b.js" => inr (regular "b.js" (date_1994 + time.Hour) "2")
  | _ => inl no_such_file
  end.

(** A directory with app.css, before and after an edit; both contents
    have an MD5 sum that starts e8793cc75c. *)
Definition fs_css (content : string) : http.FileSystem := fun name =>
  match path.Clean ("/" ++ name) with
  | "/app.css" => inr (regular "app.css" date_1994 content)
  | _ => inl no_such_file
  end.

Definition css_v1 : string := "body{margin:48270px}".
Definition css_v2 : string := "body{margin:1779095px}".

(** Two files of which one repeats the other: "a" and "aa". *)
Definition fs_aa : http.FileSystem := fun name =>
  match path.Clean ("/" ++ name) with
  | "/A" => inr (regular "A" date_1994 "a")
  | "/B" => inr (regular "B" date_1994 "aa")
  | _ => inl no_such_file
  end.

Definition globals0 (fs : http.FileSystem) : Globals :=
  {| cacheMaxAge := cacheMaxAge_default; cacheEnable := true;
     fileSystem := fs; cache := ∅ |}.

Definition fresh : http.ResponseWriter :=
  {| http.RespHeader := ∅; http.Code := None; http.Body := [] |}.

Definition GET (p : string) : http.Request :=
  {| http.Method := "GET"; http.URLPath := p; http.ReqHeader := ∅ |}.

(** GET of the byte ranges named by a Range header. *)
Definition GET_ranges (p range : string) : http.Request :=
  {| http.Method := "GET"; http.URLPath := p;
     http.ReqHeader := {[ "Range" := range ]} |}.

(** A revalidation: GET with the date of the copy the client holds. *)
Definition GET_since (p date : string) : http.Request :=
  {| http.Method := "GET"; http.URLPath := p;
     http.ReqHeader := {[ "If-Modified-Since" := date ]} |}.

(** A directory with files that fail in each of the three ways. *)
Definition fs_faulty : http.FileSystem := fun name =>
  match path.Clean ("/" ++ name) with
  | "/a.js" => inr (regular "a.js" date_1994 "1")
  | "/locked.js" => inl "open locked.js: permission denied"
  | "/nostat.js" =>
      inr {| http.Stat := inl "stat nostat.js: input/output error";
             http.ReadAll := (bytes_of_string "2", None) |}
  | "/torn.js" =>
      inr {| http.Stat := inr {| os.Name := "torn.js"; os.ModTime := date_1994;
                                 os.IsDir := false |};
             http.ReadAll := (bytes_of_string "3", Some "read torn.js: unexpected EOF") |}
  | "/js" =>
      inr {| http.Stat := inr {| os.Name := "js"; os.ModTime := date_1994;
                                 os.IsDir := true |};
             http.ReadAll := ([], Some "read js: is a directory") |}
  | _ => inl no_such_file
  end.

(** The files of the host under the directory public. *)
Definition disk (p : string) : error + http.File :=
  match p with
  | "public/a.js" => inr (regular "a.js" date_1994 "1")
  | "public/js/b.js" => inr (regular "b.js" (date_1994 + time.Hour) "2")
  | _ => inl no_such_file
  end.

(** A directory from which every file is gone. *)
Definition no_files : http.FileSystem := fun _ => inl no_such_file.

(** ** Vocabulary of the statements *)

Fixpoint slash_free (s : string) : bool :=
  match s with
  | EmptyString => true
  | String c s' => negb (Ascii.eqb c path.slash) && slash_free s'
  end.

(** An element that [path.Clean] copies to its output unchanged. *)
Definition plain_elem (e : string) : bool :=
  slash_free e && negb (String.eqb e "") && negb (String.eqb e ".")
  && negb (String.eqb e "..").

(** The elements [path.Clean] keeps when there is no ".." among them. *)
Definition kept (elems : list string) : list string :=
  List.filter (fun e => negb (String.eqb e "") && negb (String.eqb e ".")) elems.

(** The digest segment of a request path: the element [Handle] looks up. *)
Definition digest_segment (p : string) : option string :=
  nth_error (strings.Split p "/") 2.

(** The first error [CombinedURL] meets on a file, if any. *)
Definition fileError (fs : http.FileSystem) (name : string) : option error :=
  match fs name with
  | inl err => Some err
  | inr f =>
      match http.Stat f with
      | inl err => Some err
      | inr _ => snd (http.ReadAll f)
      end
  end.

Definition fileContent (fs : http.FileSystem) (name : string) : bytes :=
  match fs name with
  | inl _ => []
  | inr f => fst (http.ReadAll f)
  end.

Definition fileModTime (fs : http.FileSystem) (name : string) : time.Time :=
  match fs name with
  | inl _ => time.zero
  | inr f => match http.Stat f with inl _ => time.zero | inr st => os.ModTime st end
  end.

(** The bytes of the named files, in list order. *)
Definition concatFiles (fs : http.FileSystem) (names : list string) : bytes :=
  concat (map (fileContent fs) names).

Definition later (t u : time.Time) : time.Time := if time.Before t u then u else t.

Definition latestModTime (fs : http.FileSystem) (names : list string) (t : time.Time) : time.Time :=
  fold_left (fun t name => later t (fileModTime fs name)) names t.

(** The package-level variables after [set_cache]. *)
Definition with_entry (g : Globals) (key : string) (ce : cacheEntry) : Globals :=
  snd (set_cache key ce g).

(** The truncated digest [CombinedURL] computes for a content. *)
Definition hexS_of (content : bytes) : string :=
  substring 0 10 (hex (md5.sum content)).

(** A request without a precondition and without a Range header. *)
Definition unconditional (r : http.Request) : Prop :=
  http.ReqHeader r !! "If-Match" = None
  /\ http.ReqHeader r !! "If-Unmodified-Since" = None
  /\ http.ReqHeader r !! "If-None-Match" = None
  /\ http.ReqHeader r !! "If-Modified-Since" = None
  /\ http.ReqHeader r !! "Range" = None.

(** Whether the Range header of a request names several byte ranges of
    a content of the given size. *)
Definition asks_several_ranges `{Platform} (r : http.Request) (size : Z) : bool :=
  match http.parseRange (http.Get (http.ReqHeader r) "Range") size with
  | inr (_ :: _ :: _) => true
  | _ => false
  end.

(** A decimal digit or a letter from a to f. *)
Definition lower_hex (c : ascii) : bool :=
  existsb (Ascii.eqb c) (list_ascii_of_string "0123456789abcdef").

(** What happens to the process and under it, between a resolution and
    a later request. *)
Inductive event :=
  | FilesChange (fs : http.FileSystem)
  | Resolve (names : list string)
  | Fetch (r : http.Request).

Section Run.
Context `{Platform}.

Definition step (g : Globals) (e : event) : Globals :=
  match e with
  | FilesChange fs =>
      {| cacheMaxAge := cacheMaxAge g; cacheEnable := cacheEnable g;
         fileSystem := fs; cache := cache g |}
  | Resolve names => snd (CombinedURL names g)
  | Fetch r => snd (Handle fresh r g)
  end.

Definition run (evs : list event) (g : Globals) : Globals := fold_left step evs g.

(** No resolution among [evs], run from [g], stores other bytes than
    [content] under the digest [d]. *)
Fixpoint undisturbed (d : string) (content : bytes) (evs : list event) (g : Globals) : Prop :=
  match evs with
  | [] => True
  | e :: evs' =>
      match e with
      | Resolve names =>
          Forall (fun n => fileError (fileSystem g) n = None) names ->
          hexS_of (concatFiles (fileSystem g) names) = d ->
          concatFiles (fileSystem g) names = content
      | _ => True
      end
      /\ undisturbed d content evs' (step g e)
  end.

End Run.

(** Names the modification times in the goal as integers. *)
Ltac name_times :=
  repeat match goal with
         | |- context [fileModTime ?fs ?n] =>
             let x := fresh "mt" in
             set (x := (fileModTime fs n : Z)) in *; clearbody x
         end;
  repeat match goal with
         | |- context [latestModTime ?fs ?ns ?t] =>
             let x := fresh "lt" in
             set (x := (latestModTime fs ns t : Z)) in *; clearbody x
         end.

(** * Properties *)

(** ** Test vectors *)

Example md5_empty : hex (md5.sum []) = "d41d8cd98f00b204e9800998ecf8427e".
Proof. vm_compute. reflexivity. Qed.

Example md5_abc :
  hex (md5.sum (bytes_of_string "abc")) = "900150983cd24fb0d6963f7d28e17f72".
Proof. vm_compute. reflexivity. Qed.

Example md5_56_bytes :
  hex (md5.sum (repeat "a"%byte 56)) = "3b0c8ac703f828b04c6c197006d17218".
Proof. vm_compute. reflexivity. Qed.

Example md5_three_blocks :
  hex (md5.sum (repeat "a"%byte 130)) = "e016e4ccc7fdaea56fc377600b58c4cb".
Proof. vm_compute. reflexivity. Qed.

Example Clean_samples :
  map path.Clean ["/static//abc/x/../y/./"; "a/../../b"; ""; "///"; "../../a/.."]
  = ["/static/abc/y"; "../b"; "."; "/"; "../.."].
Proof. vm_compute. reflexivity. Qed.

Example Base_samples :
  map filepath.Base [""; "///"; "a/b/"; "css//app.css"; "a.js/x/.."; "a.js/."]
  = ["."; "/"; "b"; "app.css"; ".."; "."].
Proof. vm_compute. reflexivity. Qed.

Example Split_samples :
  map (fun s => strings.Split s "/") ["/static/abc/x"; ""; "/"]
  = [[""; "static"; "abc"; "x"]; [""]; [""; ""]].
Proof. vm_compute. reflexivity. Qed.

(** The scenario of the specification: a.js and b.js with contents "1"
    and "2". *)
Example scenario_a_b :
  let res := CombinedURL ["a.js"; "js/b.js"] (globals0 fs_ab) in
  fst res = ("/static/c20ad4d76f/a.js-b.js", None)
  /\ hexS_of (bytes_of_string "12") = "c20ad4d76f"
  /\ http.Body (fst (Handle fresh (GET (fst (fst res))) (snd res))) = bytes_of_string "12".
Proof. vm_compute. repeat split. Qed.

(** ** Strings and paths *)

Lemma Split_nonempty s sep : strings.Split s sep <> [].
Proof. destruct s as [|c s]; simpl; [discriminate|]. destruct (Ascii.eqb c sep); [discriminate|]. destruct (strings.Split s sep); discriminate. Qed.

Lemma Split_cons_other c s sep :
  Ascii.eqb c sep = false ->
  strings.Split (String c s) sep =
  String c (hd "" (strings.Split s sep)) :: tl (strings.Split s sep).
Proof.
  intros Hc. simpl. rewrite Hc.
  pose proof (Split_nonempty s sep) as Hne.
  destruct (strings.Split s sep); [contradiction | reflexivity].
Qed.

Lemma Split_cons_slash s :
  strings.Split (String path.slash s) path.slash = "" :: strings.Split s path.slash.
Proof. reflexivity. Qed.

Lemma Split_slash_free s :
  slash_free s = true -> strings.Split s path.slash = [s].
Proof.
  induction s as [|c s IH]; simpl; [reflexivity|].
  intros [Hc Hs]%andb_prop. apply negb_true_iff in Hc.
  rewrite Hc, (IH Hs). reflexivity.
Qed.

Lemma Split_elems_slash_free s :
  Forall (fun e => slash_free e = true) (strings.Split s path.slash).
Proof.
  induction s as [|c s IH]; simpl.
  - repeat constructor.
  - destruct (Ascii.eqb c path.slash) eqn:Hc.
    + constructor; [reflexivity | exact IH].
    + destruct (strings.Split s path.slash) as [|e es]; [repeat constructor; simpl; now rewrite Hc|].
      inversion IH; subst. constructor; [|assumption]. simpl. now rewrite Hc.
Qed.

Lemma Split_app_slash a b :
  strings.Split (a ++ String path.slash b) path.slash =
  (strings.Split a path.slash ++ strings.Split b path.slash)%list.
Proof.
  induction a as [|c a IH]; simpl; [reflexivity|].
  rewrite IH. destruct (Ascii.eqb c path.slash); [reflexivity|].
  pose proof (Split_nonempty a path.slash).
  destruct (strings.Split a path.slash); [contradiction | reflexivity].
Qed.

Lemma Split_Join elems :
  elems <> [] ->
  strings.Split (strings.Join elems "/") path.slash =
  concat (map (fun e => strings.Split e path.slash) elems).
Proof.
  induction elems as [|e es IH]; [contradiction|]. intros _.
  destruct es as [|e' es].
  - simpl. now rewrite app_nil_r.
  - change (strings.Join (e :: e' :: es) "/")
      with (e ++ String path.slash (strings.Join (e' :: es) "/")).
    rewrite Split_app_slash, IH by discriminate. reflexivity.
Qed.

Lemma Split_Join_slash_free elems :
  elems <> [] -> Forall (fun e => slash_free e = true) elems ->
  strings.Split (strings.Join elems "/") path.slash = elems.
Proof.
  intros Hne Hall. rewrite Split_Join by assumption.
  clear Hne. induction Hall as [|e es He _ IH]; [reflexivity|].
  simpl. rewrite (Split_slash_free _ He), IH. reflexivity.
Qed.

Lemma HasPrefix_app pre s : strings.HasPrefix (pre ++ s) pre = true.
Proof.
  unfold strings.HasPrefix. induction pre as [|a pre IH].
  - now destruct s.
  - change (String a pre ++ s) with (String a (pre ++ s)). cbn [String.prefix].
    destruct (ascii_dec a a); [exact IH | contradiction].
Qed.

Lemma fold_clean_no_dotdot rooted elems out dotdot :
  Forall (fun e => e <> "..") elems ->
  fold_left (path.clean_elem rooted) elems (out, dotdot) =
  ((rev (kept elems) ++ out)%list, dotdot).
Proof.
  intros Hall. revert out.
  induction Hall as [|e es He _ IH]; intros out; [reflexivity|].
  simpl. unfold kept in *. simpl.
  destruct (String.eqb e "") eqn:E1; simpl; [apply IH|].
  destruct (String.eqb e ".") eqn:E2; simpl; [apply IH|].
  destruct (String.eqb e "..") eqn:E3; [apply String.eqb_eq in E3; contradiction|].
  rewrite IH, <- app_assoc. reflexivity.
Qed.

Lemma plain_elem_spec e :
  plain_elem e = true ->
  slash_free e = true /\ String.eqb e "" = false /\ String.eqb e "." = false
  /\ String.eqb e ".." = false.
Proof.
  unfold plain_elem. intros Hp.
  repeat (apply andb_prop in Hp as [Hp ?]).
  repeat split; try assumption; now apply negb_true_iff.
Qed.

(** The URL [CombinedURL] builds, as long as [path.Clean] meets no ".."
    among the elements of the joined base names. *)
Lemma Join_url d joined :
  plain_elem d = true ->
  Forall (fun e => e <> "..") (strings.Split joined path.slash) ->
  path.Join [Path; d; joined] =
  strings.Join ("" :: "static" :: d :: kept (strings.Split joined path.slash)) "/".
Proof.
  intros (Hd & E1 & E2 & E3)%plain_elem_spec Hall.
  unfold path.Join. cbn [path.drop_empty Path String.eqb Ascii.eqb Bool.eqb].
  set (p := strings.Join _ "/").
  assert (Hsplit : strings.Split p path.slash =
                   ("" :: "static" :: "" :: d :: strings.Split joined path.slash)%list).
  { subst p. rewrite Split_Join by discriminate. simpl.
    rewrite (Split_slash_free d Hd), app_nil_r. reflexivity. }
  assert (Hp : exists rest, p = String path.slash rest) by (eexists; reflexivity).
  destruct Hp as [rest Hp]. unfold path.Clean. rewrite Hp at 1.
  cbn [Ascii.eqb Bool.eqb path.slash]. rewrite Hsplit.
  cbn [fold_left]. cbn [path.clean_elem String.eqb Ascii.eqb Bool.eqb length Nat.ltb Nat.leb].
  rewrite E1, E2, E3.
  rewrite fold_clean_no_dotdot by assumption. cbn [fst].
  rewrite rev_app_distr, rev_involutive. reflexivity.
Qed.

(** ** The truncated digest is an ordinary path element *)

Lemma hexdigit_hi (b : byte) :
  Ascii.eqb (hexdigit (Byte.to_N b / 16)) path.slash = false
  /\ Ascii.eqb (hexdigit (Byte.to_N b / 16)) "."%char = false.
Proof. destruct b; vm_compute; split; reflexivity. Qed.

Lemma hexdigit_lo (b : byte) :
  Ascii.eqb (hexdigit (Byte.to_N b mod 16)) path.slash = false
  /\ Ascii.eqb (hexdigit (Byte.to_N b mod 16)) "."%char = false.
Proof. destruct b; vm_compute; split; reflexivity. Qed.

Lemma sum_length msg : length (md5.sum msg) = 16%nat.
Proof. unfold md5.sum. destruct (md5.blocks _ _ _). reflexivity. Qed.

Lemma hex_prefix_plain (l : bytes) :
  (5 <= length l)%nat ->
  plain_elem (substring 0 10 (hex l)) = true
  /\ String.length (substring 0 10 (hex l)) = 10%nat.
Proof.
  destruct l as [|b0 [|b1 [|b2 [|b3 [|b4 l]]]]]; simpl length; try lia. intros _.
  cbn [hex substring].
  replace (substring 0 0 (hex l)) with "" by (now destruct (hex l)).
  split; [|reflexivity].
  unfold plain_elem. cbn [slash_free String.eqb].
  destruct (hexdigit_hi b0) as [-> ->], (hexdigit_lo b0) as [-> _],
    (hexdigit_hi b1) as [-> _], (hexdigit_lo b1) as [-> _],
    (hexdigit_hi b2) as [-> _], (hexdigit_lo b2) as [-> _],
    (hexdigit_hi b3) as [-> _], (hexdigit_lo b3) as [-> _],
    (hexdigit_hi b4) as [-> _], (hexdigit_lo b4) as [-> _].
  reflexivity.
Qed.

Lemma hexS_plain content : plain_elem (hexS_of content) = true.
Proof. apply hex_prefix_plain. rewrite sum_length. lia. Qed.

Lemma hexS_length content : String.length (hexS_of content) = 10%nat.
Proof. apply hex_prefix_plain. rewrite sum_length. lia. Qed.

(** ** Base names and their hyphen-joined form *)

Lemma last_In {A} (l : list A) d : l <> [] -> In (List.last l d) l.
Proof.
  induction l as [|x l IH]; [contradiction|]. intros _.
  destruct l as [|y l]; [now left|]. right. apply IH. discriminate.
Qed.

(** A base name is "/" or a non-empty name without a slash. *)
Lemma Base_shape p :
  filepath.Base p = "/"
  \/ (slash_free (filepath.Base p) = true /\ filepath.Base p <> "").
Proof.
  unfold filepath.Base. destruct (String.eqb p ""); [right; split; [reflexivity | discriminate]|].
  set (elems := strings.Split _ _).
  destruct (String.eqb (List.last elems "") "") eqn:E; [now left|]. right. split.
  - pose proof (Split_elems_slash_free (filepath.trimRightSlashes p)) as Hall.
    rewrite Forall_forall in Hall. apply Hall. rewrite list_elem_of_In.
    apply last_In, Split_nonempty.
  - intros Heq. rewrite Heq in E. discriminate.
Qed.

Lemma Split_app_slash_free a s :
  slash_free a = true ->
  strings.Split (a ++ s) path.slash =
  (a ++ hd "" (strings.Split s path.slash)) :: tl (strings.Split s path.slash).
Proof.
  induction a as [|c a IH].
  - intros _. change ("" ++ s) with s. pose proof (Split_nonempty s path.slash).
    destruct (strings.Split s path.slash); [contradiction | reflexivity].
  - intros [Hc Ha]%andb_prop. apply negb_true_iff in Hc.
    change (String c a ++ s) with (String c (a ++ s)).
    cbn [strings.Split]. rewrite Hc, (IH Ha). reflexivity.
Qed.

Lemma joined_elems (bs : list string) :
  bs <> [] ->
  Forall (fun b => b = "/" \/ (slash_free b = true /\ b <> "")) bs ->
  Forall (fun e => e <> "..") (tl (strings.Split (strings.Join bs "-") path.slash))
  /\ (hd "" (strings.Split (strings.Join bs "-") path.slash) = ".." -> bs = [".."]).
Proof.
  induction bs as [|b bs IH]; [contradiction|]. intros _ Hall.
  inversion Hall as [|? ? Hb Hbs]; subst.
  destruct bs as [|b' bs].
  - cbn [strings.Join String.concat]. destruct Hb as [->|[Hb _]].
    + cbn. split; [repeat constructor; discriminate | discriminate].
    + rewrite (Split_slash_free _ Hb). cbn [hd tl]. split; [constructor | now intros ->].
  - destruct (IH ltac:(discriminate) Hbs) as [IHtl _].
    change (strings.Join (b :: b' :: bs) "-")
      with (b ++ String "-"%char (strings.Join (b' :: bs) "-")).
    set (rest := strings.Join (b' :: bs) "-") in *.
    assert (Hdash : strings.Split (String "-"%char rest) path.slash =
                    String "-"%char (hd "" (strings.Split rest path.slash))
                    :: tl (strings.Split rest path.slash))
      by (now apply Split_cons_other).
    destruct Hb as [->|[Hb _]].
    + change ("/" ++ String "-"%char rest) with (String path.slash (String "-"%char rest)).
      rewrite Split_cons_slash, Hdash. cbn [hd tl]. split.
      * constructor; [discriminate | exact IHtl].
      * discriminate.
    + rewrite (Split_app_slash_free _ _ Hb), Hdash. cbn [hd tl]. split; [exact IHtl|].
      destruct b as [|c1 [|c2 [|c3 b]]]; simpl; intros Heq; inversion Heq.
Qed.

Lemma joinBasenames_no_dotdot names :
  joinBasenames names <> ".." ->
  Forall (fun e => e <> "..") (strings.Split (joinBasenames names) path.slash).
Proof.
  intros Hne. destruct names as [|n names]; [repeat constructor; discriminate|].
  unfold joinBasenames in *.
  destruct (joined_elems (map filepath.Base (n :: names))) as [Htl Hhd].
  - discriminate.
  - apply Forall_forall. intros b [p [<- _]]%list_elem_of_In%in_map_iff. apply Base_shape.
  - pose proof (Split_nonempty (strings.Join (map filepath.Base (n :: names)) "-") path.slash).
    destruct (strings.Split _ _) as [|e es]; [contradiction|].
    constructor; [|exact Htl].
    intros ->. rewrite Hhd in Hne by reflexivity. now apply Hne.
Qed.

(** ** The resolver *)

Lemma fileError_None fs name :
  fileError fs name = None ->
  exists f st, fs name = inr f /\ http.Stat f = inr st
    /\ http.ReadAll f = (fileContent fs name, None)
    /\ os.ModTime st = fileModTime fs name.
Proof.
  unfold fileError, fileContent, fileModTime.
  destruct (fs name) as [e|f]; [discriminate|].
  destruct (http.Stat f) as [e|st] eqn:Hst; [discriminate|].
  destruct (http.ReadAll f) as [c oe] eqn:Hrd. simpl. intros ->.
  exists f, st. rewrite Hst. auto.
Qed.

(** When every file can be opened, stat'd and read, the loop feeds the
    hash and the entry the same bytes, file after file. *)
Lemma loop_ok fs names h ce :
  Forall (fun n => fileError fs n = None) names ->
  CombinedURL_loop fs names h ce =
  inr ({| hash.written := (hash.written h ++ concatFiles fs names)%list |},
       {| Content := (Content ce ++ concatFiles fs names)%list;
          ModTime := latestModTime fs names (ModTime ce) |}).
Proof.
  intros Hall. revert h ce.
  induction Hall as [|n names Hn _ IH]; intros h ce.
  - unfold concatFiles. simpl. rewrite !app_nil_r. now destruct h, ce.
  - destruct (fileError_None _ _ Hn) as (f & st & Hf & Hst & Hrd & Hmt).
    cbn [CombinedURL_loop]. rewrite Hf, Hst, Hrd. cbn [hash.Write].
    rewrite IH. unfold concatFiles, latestModTime, later. cbn.
    rewrite Hmt, !app_assoc.
    destruct (time.Before (ModTime ce) (fileModTime fs n)); reflexivity.
Qed.

(** The loop stops at the first file that fails, with that file's error. *)
Lemma loop_err fs pre n post h ce err :
  Forall (fun n => fileError fs n = None) pre ->
  fileError fs n = Some err ->
  CombinedURL_loop fs (pre ++ n :: post) h ce = inl err.
Proof.
  intros Hpre Hn. revert h ce.
  induction Hpre as [|m pre Hm _ IH]; intros h ce.
  - cbn [app CombinedURL_loop]. unfold fileError in Hn.
    destruct (fs n) as [e|f]; [congruence|].
    destruct (http.Stat f) as [e|st]; [congruence|].
    destruct (http.ReadAll f) as [c [e|]]; simpl in Hn; congruence.
  - destruct (fileError_None _ _ Hm) as (f & st & Hf & Hst & Hrd & Hmt).
    cbn [app CombinedURL_loop]. rewrite Hf, Hst, Hrd. cbn [hash.Write]. apply IH.
Qed.

Lemma first_failure fs names :
  Exists (fun n => fileError fs n <> None) names ->
  exists pre n post err,
    names = (pre ++ n :: post)%list
    /\ Forall (fun n => fileError fs n = None) pre
    /\ fileError fs n = Some err.
Proof.
  induction names as [|m names IH]; intros Hex; [inversion Hex|].
  destruct (fileError fs m) as [err|] eqn:Hm.
  - exists [], m, names, err. auto.
  - inversion Hex as [? ? Hbad|? ? Hlater]; subst; [congruence|].
    destruct (IH Hlater) as (pre & n & post & err & -> & Hpre & Hn).
    exists (m :: pre), n, post, err. auto.
Qed.

Lemma loop_inr fs names h ce res :
  CombinedURL_loop fs names h ce = inr res ->
  Forall (fun n => fileError fs n = None) names.
Proof.
  revert h ce. induction names as [|n names IH]; intros h ce Hres; [constructor|].
  cbn [CombinedURL_loop] in Hres.
  destruct (fs n) as [e|f] eqn:Hf; [discriminate|].
  destruct (http.Stat f) as [e|st] eqn:Hst; [discriminate|].
  destruct (http.ReadAll f) as [c [e|]] eqn:Hrd; [discriminate|].
  cbn [hash.Write] in Hres. constructor; [|eapply IH, Hres].
  unfold fileError. now rewrite Hf, Hst, Hrd.
Qed.

Lemma CombinedURL_ok names g :
  Forall (fun n => fileError (fileSystem g) n = None) names ->
  let content := concatFiles (fileSystem g) names in
  CombinedURL names g =
  ((path.Join [Path; hexS_of content; joinBasenames names], None),
   with_entry g (hexS_of content)
     {| Content := content;
        ModTime := latestModTime (fileSystem g) names time.zero |}).
Proof.
  intros Hall. unfold CombinedURL, bind, gets. rewrite (loop_ok _ _ _ _ Hall).
  reflexivity.
Qed.

Lemma CombinedURL_success names g url g' :
  CombinedURL names g = ((url, None), g') ->
  Forall (fun n => fileError (fileSystem g) n = None) names.
Proof.
  unfold CombinedURL, bind, gets.
  destruct (CombinedURL_loop _ _ _ _) as [err|[h ce]] eqn:Hloop.
  - discriminate.
  - intros _. eapply loop_inr, Hloop.
Qed.

(** The URL of a resolution keeps the prefix and, third among its
    elements, the digest. *)
Lemma url_parts d joined :
  plain_elem d = true ->
  Forall (fun e => e <> "..") (strings.Split joined path.slash) ->
  let url := path.Join [Path; d; joined] in
  strings.HasPrefix url Path = true /\ digest_segment url = Some d.
Proof.
  intros Hd Hall url. subst url. rewrite (Join_url _ _ Hd Hall).
  apply plain_elem_spec in Hd as (Hd & _).
  split; [apply (HasPrefix_app Path)|].
  unfold digest_segment. change "/"%char with path.slash.
  rewrite Split_Join_slash_free; [reflexivity | discriminate |].
  repeat (constructor; [first [reflexivity | assumption]|]).
  unfold kept. apply Forall_forall. intros e [He _]%list_elem_of_In%filter_In.
  pose proof (Split_elems_slash_free joined) as Hsf.
  rewrite Forall_forall in Hsf. apply Hsf. now apply list_elem_of_In.
Qed.

(** ** The dispatcher *)

Section Dispatcher.
Context `{Platform}.

Lemma Handle_hit w r g d ce :
  strings.HasPrefix (http.URLPath r) Path = true ->
  digest_segment (http.URLPath r) = Some d ->
  cache g !! d = Some ce ->
  Handle w r g =
  (http.ServeContent
     (http.Set_ w "Cache-Control" ("public, max-age=" ++ itoa (whole_seconds (cacheMaxAge g))))
     r (http.URLPath r) (ModTime ce) (Content ce), g).
Proof.
  unfold Handle, digest_segment. intros -> Hd Hce. cbn [negb].
  destruct (strings.Split (http.URLPath r) "/") as [|e0 [|e1 [|e2 rest]]]; try discriminate.
  simpl in Hd. injection Hd as ->. cbn [length Nat.ltb Nat.leb nth].
  unfold bind, gets, ret. rewrite Hce. reflexivity.
Qed.

Lemma Handle_miss w r g :
  strings.HasPrefix (http.URLPath r) Path = false
  \/ (length (strings.Split (http.URLPath r) "/") < 3)%nat
  \/ (exists d, digest_segment (http.URLPath r) = Some d /\ cache g !! d = None) ->
  Handle w r g = (notFound w r, g).
Proof.
  unfold Handle. intros [->|[Hlen|(d & Hd & Hnone)]]; [reflexivity| |].
  - destruct (negb _); [reflexivity|].
    apply Nat.ltb_lt in Hlen. rewrite Hlen. reflexivity.
  - destruct (negb _); [reflexivity|].
    destruct (length _ <? 3)%nat; [reflexivity|].
    unfold digest_segment in Hd.
    destruct (strings.Split (http.URLPath r) "/") as [|e0 [|e1 [|e2 rest]]]; try discriminate.
    simpl in Hd. injection Hd as ->. unfold bind, gets, ret. cbn [nth].
    rewrite Hnone. reflexivity.
Qed.

(** [Handle] reads the package-level variables and writes none. *)
Lemma Handle_globals w r g : snd (Handle w r g) = g.
Proof.
  unfold Handle. destruct (negb _); [reflexivity|].
  destruct (length _ <? 3)%nat; [reflexivity|].
  unfold bind, gets, ret. destruct (cache g !! _); reflexivity.
Qed.

Lemma GET_unconditional p : unconditional (GET p).
Proof. repeat split. Qed.

(** For a request without a precondition, nothing is decided before the
    content is sent, and no range is left to serve. *)
Lemma checkPreconditions_unconditional w r modtime :
  unconditional r -> http.checkPreconditions w r modtime = (w, false, "").
Proof.
  intros (Him & Hius & Hinm & Hims & Hrange).
  unfold http.checkPreconditions, http.checkIfMatch, http.checkIfUnmodifiedSince,
    http.checkIfNoneMatch, http.checkIfModifiedSince, http.Get.
  rewrite Him, Hius, Hinm, Hims, Hrange. cbn [default String.eqb orb].
  destruct (negb (http.isGetOrHead r)), (http.checkIfRange w r modtime); reflexivity.
Qed.

(** Without a range to serve, the whole content is sent with status
    200. *)
Lemma serveRanges_whole w r ctype content :
  http.Method r <> "HEAD" ->
  http.Code w = None -> http.Body w = [] ->
  let w' := http.serveRanges w r "" ctype content in
  http.Code w' = Some 200 /\ http.Body w' = content
  /\ http.RespHeader w' !! "Cache-Control" = http.RespHeader w !! "Cache-Control".
Proof.
  intros Hm Hcode Hbody. unfold http.serveRanges, http.parseRange, http.Get.
  cbn [String.eqb http.sumRangesSize fold_left].
  apply String.eqb_neq in Hm. rewrite Hm.
  destruct (Z.of_nat (length content) <? 0)%Z;
    rewrite Nat2Z.id, firstn_all;
    repeat match goal with
           | |- context [if ?b then _ else _] => destruct b
           end;
    unfold http.Write, http.WriteHeader, http.Set_;
    cbn [http.Code http.Body http.RespHeader]; rewrite Hcode;
    cbn [http.Code http.Body http.RespHeader]; rewrite Hbody;
    (split; [reflexivity | split; [reflexivity|]]);
    repeat (rewrite lookup_insert_ne by discriminate); reflexivity.
Qed.

(** A request that is not HEAD and carries neither a precondition nor
    Range is answered 200 with the whole content; the Cache-Control header
    is left alone. *)
Lemma ServeContent_plain w r name modtime content :
  http.Method r <> "HEAD" ->
  unconditional r ->
  http.Code w = None ->
  http.Body w = [] ->
  let w' := http.ServeContent w r name modtime content in
  http.Code w' = Some 200 /\ http.Body w' = content
  /\ http.RespHeader w' !! "Cache-Control" = http.RespHeader w !! "Cache-Control".
Proof.
  intros Hm Hun Hcode Hbody. unfold http.ServeContent.
  rewrite (checkPreconditions_unconditional _ _ _ Hun).
  set (w0 := http.setLastModified w modtime).
  assert (H0 : http.Code w0 = None /\ http.Body w0 = []
               /\ http.RespHeader w0 !! "Cache-Control" = http.RespHeader w !! "Cache-Control").
  { subst w0. unfold http.setLastModified. destruct (http.isZeroTime modtime); [auto|].
    unfold http.Set_. cbn [http.Code http.Body http.RespHeader].
    now rewrite lookup_insert_ne by discriminate. }
  destruct H0 as (Hc0 & Hb0 & Hh0).
  destruct (http.RespHeader w0 !! "Content-Type") as [ctype|].
  - destruct (serveRanges_whole w0 r ctype content Hm Hc0 Hb0) as (Hc & Hb & Hh).
    repeat split; [exact Hc | exact Hb | now rewrite Hh].
  - destruct (serveRanges_whole (http.Set_ w0 "Content-Type" (mime_type name content)) r
                (mime_type name content) content Hm Hc0 Hb0) as (Hc & Hb & Hh).
    repeat split; [exact Hc | exact Hb|]. rewrite Hh. unfold http.Set_.
    cbn [http.RespHeader]. now rewrite lookup_insert_ne by discriminate.
Qed.

End Dispatcher.

(** ** Not found *)

Lemma notFound_response w r :
  http.Code w = None -> http.Body w = [] ->
  let w' := notFound w r in
  http.Code w' = Some 404
  /\ http.RespHeader w' !! "Cache-Control" = Some "no-cache"
  /\ http.RespHeader w' !! "Pragma" = Some "no-cache"
  /\ http.Body w' = bytes_of_string "static resource not found!".
Proof.
  intros Hcode Hbody. unfold notFound, http.Write, http.WriteHeader, http.Set_.
  cbn [http.Code http.Body http.RespHeader]. rewrite Hcode.
  cbn [http.Code http.Body http.RespHeader]. rewrite Hbody.
  repeat split.
  - rewrite lookup_insert_ne by discriminate. apply lookup_insert_eq.
  - apply lookup_insert_eq.
Qed.

(** C4. A request whose path lacks the static prefix, or has fewer than
    three elements, or whose digest segment is no key of the cache table,
    is answered 404 with Cache-Control: no-cache, Pragma: no-cache and the
    body "static resource not found!". *)
Theorem not_found_behavior `{Platform} (w : http.ResponseWriter) (r : http.Request)
    (g : Globals) :
  http.Code w = None -> http.Body w = [] ->
  strings.HasPrefix (http.URLPath r) Path = false
  \/ (length (strings.Split (http.URLPath r) "/") < 3)%nat
  \/ (exists d, digest_segment (http.URLPath r) = Some d /\ cache g !! d = None) ->
  let w' := fst (Handle w r g) in
  http.Code w' = Some 404
  /\ http.RespHeader w' !! "Cache-Control" = Some "no-cache"
  /\ http.RespHeader w' !! "Pragma" = Some "no-cache"
  /\ http.Body w' = bytes_of_string "static resource not found!".
Proof.
  intros Hcode Hbody Hmiss. rewrite (Handle_miss _ _ _ Hmiss).
  now apply notFound_response.
Qed.

Lemma not_found_behavior_witness :
  let r := GET "/static/deadbeef00/app.css" in
  let g := snd (CombinedURL ["a.js"; "js/b.js"] (globals0 fs_ab)) in
  (exists d, digest_segment (http.URLPath r) = Some d /\ cache g !! d = None)
  /\ http.Code (fst (Handle fresh r g)) = Some 404
  /\ http.Body (fst (Handle fresh r g)) = bytes_of_string "static resource not found!".
Proof.
  intros r g.
  assert (Hd : exists d, digest_segment (http.URLPath r) = Some d /\ cache g !! d = None)
    by (exists "deadbeef00"; split; vm_compute; reflexivity).
  split; [exact Hd|].
  destruct (not_found_behavior fresh r g eq_refl eq_refl (or_intror (or_intror Hd)))
    as (Hc & _ & _ & Hb).
  split; assumption.
Defined.

(** ** All or nothing *)

Lemma CombinedURL_failure names g pre n post err :
  names = (pre ++ n :: post)%list ->
  Forall (fun n => fileError (fileSystem g) n = None) pre ->
  fileError (fileSystem g) n = Some err ->
  CombinedURL names g = (("", Some err), g).
Proof.
  intros -> Hpre Hn. unfold CombinedURL, bind, gets.
  rewrite (loop_err _ _ _ _ _ _ _ Hpre Hn). reflexivity.
Qed.

(** C7. If a file of the list cannot be opened, stat'd or fully read,
    [CombinedURL] returns the empty URL with the error of the first such
    file and leaves the package-level variables, the cache table among
    them, as they were. *)
Theorem all_or_nothing (names : list string) (g : Globals) :
  Exists (fun n => fileError (fileSystem g) n <> None) names ->
  exists err n,
    CombinedURL names g = (("", Some err), g)
    /\ n ∈ names /\ fileError (fileSystem g) n = Some err.
Proof.
  intros Hex.
  destruct (first_failure _ _ Hex) as (pre & n & post & err & Hnames & Hpre & Hn).
  exists err, n. split; [eapply CombinedURL_failure; eassumption|].
  split; [|assumption]. subst names. apply list_elem_of_In, in_elt.
Qed.

Lemma all_or_nothing_witness :
  Exists (fun n => fileError fs_ab n <> None) ["a.js"; "missing.js"; "js/b.js"]
  /\ CombinedURL ["a.js"; "missing.js"; "js/b.js"] (globals0 fs_ab)
     = (("", Some no_such_file), globals0 fs_ab).
Proof.
  assert (Hex : Exists (fun n => fileError fs_ab n <> None) ["a.js"; "missing.js"; "js/b.js"])
    by (apply Exists_cons_tl, Exists_cons_hd; vm_compute; discriminate).
  split; [exact Hex|].
  destruct (all_or_nothing _ (globals0 fs_ab) Hex) as (err & n & Hres & _ & _).
  rewrite Hres. vm_compute in Hres. now injection Hres as <-.
Defined.

(** ** Who writes the cache table *)

Lemma CombinedURL_cache names g :
  snd (CombinedURL names g) = g
  \/ exists ce,
       snd (CombinedURL names g)
       = with_entry g (hexS_of (concatFiles (fileSystem g) names)) ce.
Proof.
  unfold CombinedURL, bind, gets.
  destruct (CombinedURL_loop _ _ _ _) as [err|[h ce]] eqn:Hloop; [now left|].
  right. exists ce. pose proof (loop_inr _ _ _ _ _ Hloop) as Hall.
  rewrite (loop_ok _ _ _ _ Hall) in Hloop. injection Hloop as <- <-. reflexivity.
Qed.

(** C8. [Handle] leaves every package-level variable, the cache table
    among them, as it found it, whatever the request; a resolution
    ([CombinedURL], [URL]) leaves the table alone or writes the one entry
    under the digest it computed. *)
Theorem Handle_frame `{Platform} (w : http.ResponseWriter) (r : http.Request) (g : Globals) :
  snd (Handle w r g) = g
  /\ (forall names,
        cache (snd (CombinedURL names g)) = cache g
        \/ exists ce,
             cache (snd (CombinedURL names g))
             = <[hexS_of (concatFiles (fileSystem g) names) := ce]> (cache g))
  /\ (forall name,
        cache (snd (URL name g)) = cache g
        \/ exists ce,
             cache (snd (URL name g))
             = <[hexS_of (concatFiles (fileSystem g) [name]) := ce]> (cache g)).
Proof.
  split; [|split].
  - apply Handle_globals.
  - intros names. destruct (CombinedURL_cache names g) as [->|[ce ->]]; [now left|].
    right. now exists ce.
  - intros name. unfold URL.
    destruct (CombinedURL_cache [name] g) as [->|[ce ->]]; [now left|].
    right. now exists ce.
Qed.

(** ** The empty list *)

(** C10. [CombinedURL] applied to the empty list returns no error but the
    URL made of the prefix and d41d8cd98f, the first ten hexadecimal
    characters of the MD5 sum of no bytes, with nothing after it, and
    stores under d41d8cd98f an entry with no content and the zero
    modification time. *)
Theorem empty_list (g : Globals) :
  fst (CombinedURL [] g) = ("/static/d41d8cd98f", None)
  /\ hexS_of [] = "d41d8cd98f"
  /\ joinBasenames [] = ""
  /\ cache (snd (CombinedURL [] g))
     = <["d41d8cd98f" := {| Content := []; ModTime := time.zero |}]> (cache g).
Proof.
  pose proof (CombinedURL_ok [] g (List.Forall_nil _)) as Hok. cbv zeta in Hok.
  assert (Hhex : hexS_of (concatFiles (fileSystem g) []) = "d41d8cd98f")
    by (vm_compute; reflexivity).
  rewrite Hhex in Hok. rewrite Hok. repeat split.
Qed.

(** ** Round trip *)

Section RoundTrip.
Context `{Platform}.

(** What a successful resolution returns and stores. *)
Lemma CombinedURL_resolved names g url g' :
  CombinedURL names g = ((url, None), g') ->
  let content := concatFiles (fileSystem g) names in
  url = path.Join [Path; hexS_of content; joinBasenames names]
  /\ g' = with_entry g (hexS_of content)
            {| Content := content;
               ModTime := latestModTime (fileSystem g) names time.zero |}.
Proof.
  intros Hres. pose proof (CombinedURL_success _ _ _ _ Hres) as Hall.
  rewrite (CombinedURL_ok _ _ Hall) in Hres. cbv zeta in Hres.
  injection Hres as <- <-. split; reflexivity.
Qed.

(** A plain GET of a path with the prefix whose digest segment is a key
    of the table is answered with the bytes stored under it. *)
Lemma Handle_serves w r g d ce :
  strings.HasPrefix (http.URLPath r) Path = true ->
  digest_segment (http.URLPath r) = Some d ->
  cache g !! d = Some ce ->
  http.Method r = "GET" ->
  unconditional r ->
  http.Code w = None -> http.Body w = [] ->
  let w' := fst (Handle w r g) in
  http.Code w' = Some 200 /\ http.Body w' = Content ce
  /\ http.RespHeader w' !! "Cache-Control"
     = Some ("public, max-age=" ++ itoa (whole_seconds (cacheMaxAge g))).
Proof.
  intros Hpre Hd Hce Hm Hun Hcode Hbody.
  rewrite (Handle_hit _ _ _ _ _ Hpre Hd Hce). cbn [fst].
  destruct (ServeContent_plain
              (http.Set_ w "Cache-Control"
                 ("public, max-age=" ++ itoa (whole_seconds (cacheMaxAge g))))
              r (http.URLPath r) (ModTime ce) (Content ce))
    as (Hc & Hb & Hh); try assumption.
  - rewrite Hm. discriminate.
  - repeat split; [exact Hc | exact Hb|].
    rewrite Hh. apply lookup_insert_eq.
Qed.

End RoundTrip.

(** C1, as stated, fails for a revalidating request: the URL of a.js,
    asked for with the If-Modified-Since date of the copy held, is
    answered 304 with no body. *)
Lemma round_trip_revalidation :
  let names := ["a.js"] in
  let res := CombinedURL names (globals0 fs_ab) in
  let r := GET_since (fst (fst res)) "Sun, 06 Nov 1994 08:49:37 GMT" in
  let w' := fst (Handle fresh r (snd res)) in
  names <> [] /\ snd (fst res) = None /\ http.URLPath r = fst (fst res)
  /\ http.Code w' = Some 304 /\ http.Body w' = []
  /\ ~ (http.Code w' = Some 200 /\ http.Body w' = concatFiles fs_ab names).
Proof.
  vm_compute. repeat split; try discriminate.
  intros [Hcode _]. discriminate.
Qed.

(** So is a request that carries If-None-Match: *, and so on for the
    other preconditions. *)
Example revalidation_by_entity_tag :
  let res := CombinedURL ["a.js"] (globals0 fs_ab) in
  let r := {| http.Method := "GET"; http.URLPath := fst (fst res);
              http.ReqHeader := {[ "If-None-Match" := "*" ]} |} in
  let w' := fst (Handle fresh r (snd res)) in
  http.Code w' = Some 304 /\ http.Body w' = [].
Proof. vm_compute. split; reflexivity. Qed.

(** C1, amended. For every non-empty file list that [CombinedURL]
    resolves and whose joined base names are not "..", a GET request for
    exactly the returned URL that carries no precondition (none of
    If-Match, If-Unmodified-Since, If-None-Match, If-Modified-Since) and
    no Range header is answered with status 200, the concatenated bytes of
    the files that were hashed (the digest segment of the URL is their
    truncated MD5 sum) and the header Cache-Control: public,
    max-age=<configured seconds>. *)
Theorem round_trip `{Platform} (names : list string) (g g' : Globals) (url : string)
    (r : http.Request) (w : http.ResponseWriter) :
  names <> [] ->
  joinBasenames names <> ".." ->
  CombinedURL names g = ((url, None), g') ->
  http.URLPath r = url ->
  http.Method r = "GET" ->
  unconditional r ->
  http.Code w = None -> http.Body w = [] ->
  let w' := fst (Handle w r g') in
  let content := concatFiles (fileSystem g) names in
  digest_segment url = Some (hexS_of content)
  /\ http.Code w' = Some 200
  /\ http.Body w' = content
  /\ http.RespHeader w' !! "Cache-Control"
     = Some ("public, max-age=" ++ itoa (whole_seconds (cacheMaxAge g'))).
Proof.
  intros _ Hjoined Hres Hpath Hm Hun Hcode Hbody w' content.
  destruct (CombinedURL_resolved _ _ _ _ Hres) as [Hurl Hg'].
  destruct (url_parts (hexS_of content) (joinBasenames names)) as [Hpre Hseg].
  { apply hexS_plain. }
  { now apply joinBasenames_no_dotdot. }
  fold content in Hurl, Hg'. rewrite <- Hurl in Hpre, Hseg.
  split; [exact Hseg|].
  subst w'. rewrite <- Hpath in Hpre, Hseg.
  eapply (Handle_serves w r g' (hexS_of content)
            {| Content := content;
               ModTime := latestModTime (fileSystem g) names time.zero |});
    try eassumption.
  rewrite Hg'. apply lookup_insert_eq.
Qed.

Lemma round_trip_witness :
  let names := ["a.js"; "js/b.js"] in
  let g := globals0 fs_ab in
  let g' := snd (CombinedURL names g) in
  let url := "/static/c20ad4d76f/a.js-b.js" in
  let r := GET url in
  let w' := fst (Handle fresh r g') in
  (names <> [] /\ joinBasenames names <> ".."
   /\ CombinedURL names g = ((url, None), g')
   /\ unconditional r)
  /\ digest_segment url = Some (hexS_of (concatFiles (fileSystem g) names))
  /\ http.Code w' = Some 200
  /\ http.Body w' = concatFiles (fileSystem g) names
  /\ http.RespHeader w' !! "Cache-Control"
     = Some ("public, max-age=" ++ itoa (whole_seconds (cacheMaxAge g'))).
Proof.
  intros names g g' url r w'.
  assert (Hne : names <> []) by discriminate.
  assert (Hjoined : joinBasenames names <> "..") by (vm_compute; discriminate).
  assert (Hres : CombinedURL names g = ((url, None), g')) by (vm_compute; reflexivity).
  assert (Hun : unconditional r) by (repeat split).
  split; [auto|].
  exact (round_trip names g g' url r fresh Hne Hjoined Hres eq_refl eq_refl Hun
           eq_refl eq_refl).
Defined.

(** ** Content addressing *)

Lemma CombinedURL_error names g url err g' :
  CombinedURL names g = ((url, Some err), g') -> g' = g.
Proof.
  unfold CombinedURL, bind, gets.
  destruct (CombinedURL_loop _ _ _ _) as [e|[h ce]]; cbn; intros Heq.
  - now injection Heq as _ _ <-.
  - discriminate.
Qed.

Section ContentAddressing.
Context `{Platform}.

(** The bytes under a digest stay what they are over every event that
    does not store other bytes under it. *)
Lemma run_keeps d content evs g :
  (exists ce, cache g !! d = Some ce /\ Content ce = content) ->
  undisturbed d content evs g ->
  exists ce, cache (run evs g) !! d = Some ce /\ Content ce = content.
Proof.
  revert g. induction evs as [|e evs IH]; intros g Hinv Hund; [exact Hinv|].
  cbn [undisturbed] in Hund. destruct Hund as [He Hund].
  unfold run. cbn [fold_left]. apply IH; [|exact Hund]. clear IH Hund.
  destruct e as [fs|names|r]; cbn [step].
  - exact Hinv.
  - destruct (CombinedURL names g) as [[url [err|]] g2] eqn:Hres; cbn [snd].
    + now rewrite (CombinedURL_error _ _ _ _ _ Hres).
    + pose proof (CombinedURL_success _ _ _ _ Hres) as Hall.
      destruct (CombinedURL_resolved _ _ _ _ Hres) as [_ ->].
      unfold with_entry, set_cache. cbn [snd cache].
      destruct (decide (hexS_of (concatFiles (fileSystem g) names) = d)) as [Hd|Hd].
      * rewrite Hd, lookup_insert_eq. eexists. split; [reflexivity|].
        cbn [Content]. now apply He.
      * now rewrite lookup_insert_ne.
  - rewrite Handle_globals. exact Hinv.
Qed.

End ContentAddressing.

(** C2, as stated, fails when a file changes to a content with the same
    truncated MD5 sum and is resolved again: the URL handed out for the
    first content then serves the second. *)
Lemma content_addressing_collision :
  let names := ["app.css"] in
  let res := CombinedURL names (globals0 (fs_css css_v1)) in
  let evs := [FilesChange (fs_css css_v2); Resolve names] in
  let w' := fst (Handle fresh (GET (fst (fst res))) (run evs (snd res))) in
  fst res = ("/static/e8793cc75c/app.css", None)
  /\ concatFiles (fs_css css_v1) names = bytes_of_string css_v1
  /\ http.Code w' = Some 200
  /\ http.Body w' = bytes_of_string css_v2
  /\ http.Body w' <> concatFiles (fs_css css_v1) names.
Proof. vm_compute. repeat split; discriminate. Qed.

(** C2, amended. For every URL [CombinedURL] returns for a file list
    whose joined base names are not "..", a plain GET of that URL after
    any later events (changes of the files, resolutions, requests) is
    answered 200 with exactly the bytes whose truncated MD5 sum is the
    digest segment of the URL, provided no later resolution stored other
    bytes under the same ten-character digest. *)
Theorem content_addressing `{Platform} (names : list string) (g g' : Globals)
    (url : string) (evs : list event) :
  joinBasenames names <> ".." ->
  CombinedURL names g = ((url, None), g') ->
  let content := concatFiles (fileSystem g) names in
  undisturbed (hexS_of content) content evs g' ->
  let w' := fst (Handle fresh (GET url) (run evs g')) in
  digest_segment url = Some (hexS_of content)
  /\ http.Code w' = Some 200
  /\ http.Body w' = content.
Proof.
  intros Hjoined Hres content Hund w'.
  destruct (CombinedURL_resolved _ _ _ _ Hres) as [Hurl Hg'].
  destruct (url_parts (hexS_of content) (joinBasenames names)) as [Hpre Hseg].
  { apply hexS_plain. }
  { now apply joinBasenames_no_dotdot. }
  fold content in Hurl, Hg'. rewrite <- Hurl in Hpre, Hseg.
  split; [exact Hseg|].
  destruct (run_keeps (hexS_of content) content evs g') as (ce & Hce & Hcontent).
  { rewrite Hg'. eexists. split; [apply lookup_insert_eq | reflexivity]. }
  { exact Hund. }
  destruct (Handle_serves fresh (GET url) (run evs g') (hexS_of content) ce)
    as (Hc & Hb & _); try assumption; try reflexivity; [apply GET_unconditional|].
  subst w'. rewrite Hb, Hcontent. split; [exact Hc | reflexivity].
Qed.

Lemma content_addressing_witness :
  let names := ["app.css"] in
  let g := globals0 (fs_css css_v1) in
  let g' := snd (CombinedURL names g) in
  let url := "/static/e8793cc75c/app.css" in
  let evs := [FilesChange (fs_css "body{}"); Resolve names; Fetch (GET "/static/x/app.css")] in
  let content := concatFiles (fileSystem g) names in
  let w' := fst (Handle fresh (GET url) (run evs g')) in
  (joinBasenames names <> ".."
   /\ CombinedURL names g = ((url, None), g')
   /\ undisturbed (hexS_of content) content evs g')
  /\ digest_segment url = Some (hexS_of content)
  /\ http.Code w' = Some 200
  /\ http.Body w' = content.
Proof.
  intros names g g' url evs content w'.
  assert (Hjoined : joinBasenames names <> "..") by (vm_compute; discriminate).
  assert (Hres : CombinedURL names g = ((url, None), g')) by (vm_compute; reflexivity).
  assert (Hund : undisturbed (hexS_of content) content evs g').
  { cbn [undisturbed evs]. repeat split.
    intros _ Hd. exfalso. vm_compute in Hd. discriminate. }
  split; [auto|].
  exact (content_addressing names g g' url evs Hjoined Hres Hund).
Defined.

(** ** Order of the files *)

Lemma joined_two_not_dotdot x y names : joinBasenames (x :: y :: names) <> "..".
Proof.
  unfold joinBasenames. cbn [map].
  change (strings.Join (filepath.Base x :: filepath.Base y :: map filepath.Base names) "-")
    with (filepath.Base x
          ++ String "-"%char (strings.Join (filepath.Base y :: map filepath.Base names) "-")).
  destruct (filepath.Base x) as [|c1 [|c2 [|c3 b]]]; cbn; intros Heq; inversion Heq.
Qed.

(** C5, as stated, fails for two files of which one repeats the other:
    "a" followed by "aa" and "aa" followed by "a" are the same bytes. *)
Lemma order_sensitivity_same_bytes :
  let g := globals0 fs_aa in
  let r1 := fst (CombinedURL ["A"; "B"] g) in
  let r2 := fst (CombinedURL ["B"; "A"] g) in
  fileContent fs_aa "A" <> fileContent fs_aa "B"
  /\ r1 = ("/static/47bce5c74f/A-B", None)
  /\ r2 = ("/static/47bce5c74f/B-A", None)
  /\ digest_segment (fst r1) = digest_segment (fst r2).
Proof. vm_compute. repeat split; discriminate. Qed.

(** C5, amended. When [A, B] and [B, A] both resolve, the digest segment
    of the first URL is the truncated MD5 sum of A's bytes followed by
    B's and that of the second the truncated sum of B's bytes followed by
    A's: the two segments differ exactly when these two sums differ, which
    takes the two concatenations, not merely the two contents, to
    differ. *)
Theorem order_sensitivity (A B : string) (g g1 g2 : Globals) (u1 u2 : string) :
  CombinedURL [A; B] g = ((u1, None), g1) ->
  CombinedURL [B; A] g = ((u2, None), g2) ->
  let a := fileContent (fileSystem g) A in
  let b := fileContent (fileSystem g) B in
  digest_segment u1 = Some (hexS_of (a ++ b)%list)
  /\ digest_segment u2 = Some (hexS_of (b ++ a)%list)
  /\ (digest_segment u1 <> digest_segment u2
      <-> hexS_of (a ++ b)%list <> hexS_of (b ++ a)%list)
  /\ (digest_segment u1 <> digest_segment u2 -> (a ++ b)%list <> (b ++ a)%list).
Proof.
  intros H1 H2 a b.
  assert (Hseg : forall x y u g', CombinedURL [x; y] g = ((u, None), g') ->
            digest_segment u
            = Some (hexS_of (fileContent (fileSystem g) x ++ fileContent (fileSystem g) y)%list)).
  { intros x y u g' Hres. destruct (CombinedURL_resolved _ _ _ _ Hres) as [-> _].
    unfold concatFiles. cbn [map concat]. rewrite app_nil_r.
    apply url_parts; [apply hexS_plain|].
    apply joinBasenames_no_dotdot, joined_two_not_dotdot. }
  rewrite (Hseg _ _ _ _ H1), (Hseg _ _ _ _ H2). fold a b.
  split; [reflexivity|]. split; [reflexivity|]. split.
  - split; intros Hne Heq; apply Hne; congruence.
  - intros Hne Heq. apply Hne. now rewrite Heq.
Qed.

Lemma order_sensitivity_witness :
  let g := globals0 fs_ab in
  let A := "a.js" in
  let B := "js/b.js" in
  let u1 := "/static/c20ad4d76f/a.js-b.js" in
  let u2 := "/static/3c59dc048e/b.js-a.js" in
  (CombinedURL [A; B] g = ((u1, None), snd (CombinedURL [A; B] g))
   /\ CombinedURL [B; A] g = ((u2, None), snd (CombinedURL [B; A] g)))
  /\ digest_segment u1 = Some (hexS_of (fileContent fs_ab A ++ fileContent fs_ab B)%list)
  /\ digest_segment u1 <> digest_segment u2.
Proof.
  intros g A B u1 u2.
  assert (H1 : CombinedURL [A; B] g = ((u1, None), snd (CombinedURL [A; B] g)))
    by (vm_compute; reflexivity).
  assert (H2 : CombinedURL [B; A] g = ((u2, None), snd (CombinedURL [B; A] g)))
    by (vm_compute; reflexivity).
  split; [auto|].
  destruct (order_sensitivity A B g _ _ u1 u2 H1 H2) as (Hs1 & _ & Hiff & _).
  split; [exact Hs1|].
  apply Hiff. vm_compute. discriminate.
Defined.

(** ** The trailing segments *)

Section Trailing.
Context `{Platform}.

Lemma checkPreconditions_request w r1 r2 modtime :
  http.Method r1 = http.Method r2 ->
  http.ReqHeader r1 = http.ReqHeader r2 ->
  http.checkPreconditions w r1 modtime = http.checkPreconditions w r2 modtime.
Proof.
  intros Hm Hh.
  unfold http.checkPreconditions, http.checkIfMatch, http.checkIfUnmodifiedSince,
    http.checkIfNoneMatch, http.checkIfModifiedSince, http.checkIfRange, http.isGetOrHead.
  now rewrite Hm, Hh.
Qed.

(** The Range header that the preconditions leave to serve is that of
    the request, or none. *)
Lemma checkPreconditions_range w r modtime w' rangeReq :
  http.checkPreconditions w r modtime = (w', false, rangeReq) ->
  rangeReq = "" \/ rangeReq = http.Get (http.ReqHeader r) "Range".
Proof.
  unfold http.checkPreconditions.
  destruct (http.checkIfMatch w r), (http.checkIfUnmodifiedSince r modtime),
    (http.checkIfNoneMatch w r), (http.isGetOrHead r),
    (http.checkIfModifiedSince r modtime), (http.checkIfRange w r modtime);
    intros Heq; try discriminate; injection Heq as _ <-; auto.
Qed.

(** The status of what [http.serveRanges] sends depends on the status
    already written and on the ranges; so does the body, unless several
    ranges are served. *)
Lemma serveRanges_same w1 w2 r1 r2 rangeReq ctype1 ctype2 content :
  http.Code w1 = http.Code w2 -> http.Body w1 = http.Body w2 ->
  http.Method r1 = http.Method r2 ->
  let s1 := http.serveRanges w1 r1 rangeReq ctype1 content in
  let s2 := http.serveRanges w2 r2 rangeReq ctype2 content in
  http.Code s1 = http.Code s2
  /\ (match http.parseRange rangeReq (Z.of_nat (length content)) with
      | inr (_ :: _ :: _) => true
      | _ => false
      end = false -> http.Body s1 = http.Body s2).
Proof.
  intros Hc Hb Hm. unfold http.serveRanges. rewrite Hm.
  destruct (http.parseRange _ _) as [[|]|[|[start len] [|ra ranges]]];
    try destruct (multipart_byteranges _ ctype1 content) as [b1 body1];
    try destruct (multipart_byteranges _ ctype2 content) as [b2 body2];
    repeat match goal with
           | |- context [if ?b then _ else _] => destruct b
           end;
    unfold http.Error, http.Write, http.WriteHeader, http.Set_;
    cbn [http.Code http.Body http.RespHeader]; rewrite Hc;
    destruct (http.Code w2); cbn [http.Code http.Body http.RespHeader];
    rewrite ?Hb; (split; [reflexivity|]); first [reflexivity | discriminate].
Qed.

(** The name given to [http.ServeContent] does not show in the status,
    nor in the body unless several ranges are served. *)
Lemma ServeContent_name w r1 r2 name1 name2 modtime content :
  http.Method r1 = http.Method r2 ->
  http.ReqHeader r1 = http.ReqHeader r2 ->
  let w1 := http.ServeContent w r1 name1 modtime content in
  let w2 := http.ServeContent w r2 name2 modtime content in
  http.Code w1 = http.Code w2
  /\ (asks_several_ranges r1 (Z.of_nat (length content)) = false ->
      http.Body w1 = http.Body w2).
Proof.
  intros Hm Hh. unfold http.ServeContent.
  rewrite (checkPreconditions_request _ r1 r2 _ Hm Hh).
  destruct (http.checkPreconditions _ r2 modtime) as [[w0 done] rangeReq] eqn:Hpre.
  destruct done; [split; reflexivity|].
  assert (Hfew : asks_several_ranges r1 (Z.of_nat (length content)) = false ->
                 match http.parseRange rangeReq (Z.of_nat (length content)) with
                 | inr (_ :: _ :: _) => true
                 | _ => false
                 end = false).
  { unfold asks_several_ranges. rewrite Hh.
    destruct (checkPreconditions_range _ _ _ _ _ Hpre) as [-> | ->]; [reflexivity | auto]. }
  destruct (http.RespHeader w0 !! "Content-Type") as [ctype|].
  - destruct (serveRanges_same w0 w0 r1 r2 rangeReq ctype ctype content eq_refl eq_refl Hm)
      as [Hcode Hbody].
    split; [exact Hcode | auto].
  - destruct (serveRanges_same
                (http.Set_ w0 "Content-Type" (mime_type name1 content))
                (http.Set_ w0 "Content-Type" (mime_type name2 content))
                r1 r2 rangeReq (mime_type name1 content) (mime_type name2 content) content
                eq_refl eq_refl Hm) as [Hcode Hbody].
    split; [exact Hcode | auto].
Qed.

End Trailing.

(** C9, as stated, fails for a request that asks for several byte
    ranges: the parts of the multipart answer carry the Content-Type
    inferred from the path, so the same digest segment followed by a name
    in .js and by a name in .css gives two bodies. *)
Lemma trailing_segment_multipart :
  let g := snd (CombinedURL ["a.js"; "js/b.js"] (globals0 fs_ab)) in
  let r1 := GET_ranges "/static/c20ad4d76f/a.js-b.js" "bytes=0-0,1-1" in
  let r2 := GET_ranges "/static/c20ad4d76f/site.css" "bytes=0-0,1-1" in
  let w1 := fst (Handle fresh r1 g) in
  let w2 := fst (Handle fresh r2 g) in
  strings.HasPrefix (http.URLPath r1) Path = true
  /\ strings.HasPrefix (http.URLPath r2) Path = true
  /\ digest_segment (http.URLPath r1) = digest_segment (http.URLPath r2)
  /\ http.Method r1 = http.Method r2
  /\ http.ReqHeader r1 = http.ReqHeader r2
  /\ http.Code w1 = Some 206 /\ http.Code w2 = Some 206
  /\ http.Body w1 <> http.Body w2.
Proof.
  vm_compute. repeat split. discriminate.
Qed.

(** C9, amended. Two requests that differ in their paths only, both
    with the static prefix and with the same digest segment, are answered
    with the same status, and with the same body unless the request asks
    for several byte ranges: what is served is what the cache table holds
    under the digest segment, whatever follows it. *)
Theorem trailing_segment_cosmetic `{Platform} (w : http.ResponseWriter)
    (r1 r2 : http.Request) (g : Globals) :
  strings.HasPrefix (http.URLPath r1) Path = true ->
  strings.HasPrefix (http.URLPath r2) Path = true ->
  digest_segment (http.URLPath r1) = digest_segment (http.URLPath r2) ->
  http.Method r1 = http.Method r2 ->
  http.ReqHeader r1 = http.ReqHeader r2 ->
  let w1 := fst (Handle w r1 g) in
  let w2 := fst (Handle w r2 g) in
  http.Code w1 = http.Code w2
  /\ ((forall size, asks_several_ranges r1 size = false) -> http.Body w1 = http.Body w2).
Proof.
  intros Hp1 Hp2 Hseg Hm Hh.
  destruct (digest_segment (http.URLPath r1)) as [d|] eqn:Hd1.
  - symmetry in Hseg. destruct (cache g !! d) as [ce|] eqn:Hce.
    + rewrite (Handle_hit _ _ _ _ _ Hp1 Hd1 Hce), (Handle_hit _ _ _ _ _ Hp2 Hseg Hce).
      cbn [fst].
      destruct (ServeContent_name
                  (http.Set_ w "Cache-Control"
                     ("public, max-age=" ++ itoa (whole_seconds (cacheMaxAge g))))
                  r1 r2 (http.URLPath r1) (http.URLPath r2) (ModTime ce) (Content ce) Hm Hh)
        as [Hcode Hbody].
      split; [exact Hcode | intros Hfew; apply Hbody, Hfew].
    + rewrite (Handle_miss w r1 g), (Handle_miss w r2 g); [split; reflexivity | |].
      * right; right. now exists d.
      * right; right. now exists d.
  - symmetry in Hseg.
    rewrite (Handle_miss w r1 g), (Handle_miss w r2 g); [split; reflexivity | |].
    + right; left. unfold digest_segment in Hseg. apply nth_error_None in Hseg. lia.
    + right; left. unfold digest_segment in Hd1. apply nth_error_None in Hd1. lia.
Qed.

Lemma trailing_segment_cosmetic_witness :
  let g := snd (CombinedURL ["a.js"; "js/b.js"] (globals0 fs_ab)) in
  let r1 := GET "/static/c20ad4d76f/a.js-b.js" in
  let r2 := GET "/static/c20ad4d76f/img/logo.png" in
  (digest_segment (http.URLPath r1) = digest_segment (http.URLPath r2)
   /\ http.URLPath r1 <> http.URLPath r2
   /\ forall size, asks_several_ranges r1 size = false)
  /\ http.Code (fst (Handle fresh r1 g)) = http.Code (fst (Handle fresh r2 g))
  /\ http.Body (fst (Handle fresh r1 g)) = http.Body (fst (Handle fresh r2 g)).
Proof.
  intros g r1 r2.
  assert (Hp1 : strings.HasPrefix (http.URLPath r1) Path = true) by (vm_compute; reflexivity).
  assert (Hp2 : strings.HasPrefix (http.URLPath r2) Path = true) by (vm_compute; reflexivity).
  assert (Hseg : digest_segment (http.URLPath r1) = digest_segment (http.URLPath r2))
    by (vm_compute; reflexivity).
  assert (Hfew : forall size, asks_several_ranges r1 size = false) by (intros size; reflexivity).
  split; [split; [exact Hseg | split; [vm_compute; discriminate | exact Hfew]]|].
  destruct (trailing_segment_cosmetic fresh r1 r2 g Hp1 Hp2 Hseg eq_refl eq_refl)
    as [Hcode Hbody].
  split; [exact Hcode | exact (Hbody Hfew)].
Defined.

(** ** Shape of the URL *)

(** When the joined base names are one ordinary path element, the URL
    is the prefix, the digest, a slash and the joined base names. *)
Lemma CombinedURL_url_plain names g url g' :
  CombinedURL names g = ((url, None), g') ->
  plain_elem (joinBasenames names) = true ->
  url = Path ++ hexS_of (concatFiles (fileSystem g) names) ++ "/" ++ joinBasenames names.
Proof.
  intros Hres Hplain. destruct (CombinedURL_resolved _ _ _ _ Hres) as [-> _].
  destruct (plain_elem_spec _ Hplain) as (Hsf & E1 & E2 & E3).
  rewrite Join_url.
  - rewrite (Split_slash_free _ Hsf). unfold kept. cbn [List.filter].
    rewrite E1, E2. reflexivity.
  - apply hexS_plain.
  - rewrite (Split_slash_free _ Hsf). constructor; [|constructor].
    intros Heq. rewrite Heq in E3. discriminate.
Qed.

(** C3 at a file name that ends in "..": the file opens and is hashed
    and the table is keyed by the truncated sum, but [path.Join] cleans
    the digest away, so the URL returned has no digest segment. *)
Lemma digest_segment_lost :
  let names := ["a.js/x/.."] in
  let res := CombinedURL names (globals0 fs_ab) in
  names <> []
  /\ fst res = ("/static", None)
  /\ digest_segment (fst (fst res)) = None
  /\ hexS_of (concatFiles fs_ab names) = "c4ca4238a0"
  /\ cache (snd res) !! "c4ca4238a0"
     = Some {| Content := bytes_of_string "1"; ModTime := date_1994 |}.
Proof. vm_compute. repeat split. discriminate. Qed.

(** C6 at the same file name: the URL returned is "/static", neither
    the prefix followed by the digest nor followed by the base name. *)
Lemma url_shape_lost :
  let names := ["a.js/x/.."] in
  let res := CombinedURL names (globals0 fs_ab) in
  let d := hexS_of (concatFiles fs_ab names) in
  fst res = ("/static", None)
  /\ joinBasenames names = ".."
  /\ fst (fst res) <> Path ++ d ++ "/" ++ joinBasenames names
  /\ strings.HasPrefix (fst (fst res)) (Path ++ d) = false.
Proof. vm_compute. repeat split. discriminate. Qed.

(** ** The cache-less revision *)

(** There the digest of the request is not looked at and the bytes are
    those of the file named by the trailing segments, as it is when the
    request comes. *)
Lemma Direct_serves_current_file :
  let res := Direct.URL "app.css" (globals0 (fs_css css_v1)) in
  let g' := step (snd res) (FilesChange (fs_css "body{}")) in
  fst res = ("/static/e8793cc75c/app.css", None)
  /\ http.Body (fst (Direct.Handle fresh (GET "/static/e8793cc75c/app.css") g'))
     = bytes_of_string "body{}"
  /\ http.Body (fst (Direct.Handle fresh (GET "/static/0000000000/app.css") g'))
     = bytes_of_string "body{}".
Proof. vm_compute. repeat split. Qed.

(** * Further properties of the resolver *)

Lemma with_entry_twice g key ce : with_entry (with_entry g key ce) key ce = with_entry g key ce.
Proof.
  unfold with_entry, set_cache. cbn [snd cacheMaxAge cacheEnable fileSystem cache].
  now rewrite insert_insert_eq.
Qed.

Lemma CombinedURL_again names g url g' :
  CombinedURL names g = ((url, None), g') ->
  CombinedURL names g' = ((url, None), g').
Proof.
  intros Hres. pose proof (CombinedURL_success _ _ _ _ Hres) as Hall.
  destruct (CombinedURL_resolved _ _ _ _ Hres) as [-> ->].
  set (ce := {| Content := _; ModTime := _ |}).
  set (d := hexS_of _).
  assert (Hfs : fileSystem (with_entry g d ce) = fileSystem g) by reflexivity.
  rewrite CombinedURL_ok by (now rewrite Hfs).
  cbv zeta. rewrite Hfs. fold d ce. now rewrite with_entry_twice.
Qed.

(** Resolving a list again while the files are as they were returns the
    same URL and leaves the package-level variables, the cache table among
    them, as the first resolution left them. *)
Theorem resolve_twice (names : list string) (g g' : Globals) (url : string) :
  CombinedURL names g = ((url, None), g') ->
  CombinedURL names g' = ((url, None), g')
  /\ cache g' !! hexS_of (concatFiles (fileSystem g) names)
     = Some {| Content := concatFiles (fileSystem g) names;
               ModTime := latestModTime (fileSystem g) names time.zero |}.
Proof.
  intros Hres. split; [exact (CombinedURL_again _ _ _ _ Hres)|].
  destruct (CombinedURL_resolved _ _ _ _ Hres) as [_ ->]. apply lookup_insert_eq.
Qed.

Lemma resolve_twice_witness :
  let names := ["a.js"; "js/b.js"] in
  let g := globals0 fs_ab in
  let url := "/static/c20ad4d76f/a.js-b.js" in
  let g' := snd (CombinedURL names g) in
  CombinedURL names g = ((url, None), g')
  /\ CombinedURL names g' = ((url, None), g').
Proof.
  intros names g url g'.
  assert (Hres : CombinedURL names g = ((url, None), g')) by (vm_compute; reflexivity).
  split; [exact Hres|]. exact (proj1 (resolve_twice names g g' url Hres)).
Defined.

Lemma later_max t u : later t u = Z.max t u.
Proof. unfold later, time.Before. destruct (Z.ltb_spec t u); lia. Qed.

Lemma latestModTime_ge fs names t : t <= latestModTime fs names t.
Proof.
  revert t. induction names as [|n names IH]; intros t; [cbn; lia|].
  cbn [latestModTime fold_left]. fold (latestModTime fs names (later t (fileModTime fs n))).
  specialize (IH (later t (fileModTime fs n))). rewrite later_max in *.
  eapply Z.le_trans; [apply Z.le_max_l | exact IH].
Qed.

Lemma latestModTime_bounds fs names t n :
  In n names -> fileModTime fs n <= latestModTime fs names t.
Proof.
  revert t. induction names as [|m names IH]; intros t; [contradiction|].
  cbn [latestModTime fold_left]. fold (latestModTime fs names (later t (fileModTime fs m))).
  intros [->|Hin].
  - pose proof (latestModTime_ge fs names (later t (fileModTime fs n))) as Hge.
    rewrite later_max in *. eapply Z.le_trans; [apply Z.le_max_r | exact Hge].
  - now apply IH.
Qed.

Lemma latestModTime_attained fs names t :
  latestModTime fs names t = t
  \/ exists n, In n names /\ latestModTime fs names t = fileModTime fs n.
Proof.
  revert t. induction names as [|m names IH]; intros t; [now left|].
  cbn [latestModTime fold_left]. fold (latestModTime fs names (later t (fileModTime fs m))).
  destruct (IH (later t (fileModTime fs m))) as [Heq|(n & Hin & Heq)].
  - rewrite Heq. unfold later. destruct (time.Before _ _); [right|now left].
    exists m. split; [now left | reflexivity].
  - right. exists n. split; [now right | exact Heq].
Qed.

(** The entry a resolution stores carries the latest modification time
    of its files: no file is newer, and the time is that of one of the
    files unless none is later than the zero time. *)
Theorem entry_modtime_latest (names : list string) (g g' : Globals) (url : string) :
  CombinedURL names g = ((url, None), g') ->
  exists ce,
    cache g' !! hexS_of (concatFiles (fileSystem g) names) = Some ce
    /\ (forall n, In n names -> fileModTime (fileSystem g) n <= ModTime ce)
    /\ (ModTime ce = time.zero
        \/ exists n, In n names /\ ModTime ce = fileModTime (fileSystem g) n).
Proof.
  intros Hres. destruct (CombinedURL_resolved _ _ _ _ Hres) as [_ ->].
  eexists. split; [apply lookup_insert_eq|]. cbn [ModTime]. split.
  - intros n Hin. now apply latestModTime_bounds.
  - apply latestModTime_attained.
Qed.

Lemma entry_modtime_latest_witness :
  let names := ["js/b.js"; "a.js"] in
  let g := globals0 fs_ab in
  let g' := snd (CombinedURL names g) in
  CombinedURL names g = (("/static/3c59dc048e/b.js-a.js", None), g')
  /\ exists ce,
       cache g' !! hexS_of (concatFiles (fileSystem g) names) = Some ce
       /\ (forall n, In n names -> fileModTime (fileSystem g) n <= ModTime ce)
       /\ (ModTime ce = time.zero
           \/ exists n, In n names /\ ModTime ce = fileModTime (fileSystem g) n).
Proof.
  intros names g g'.
  assert (Hres : CombinedURL names g = (("/static/3c59dc048e/b.js-a.js", None), g'))
    by (vm_compute; reflexivity).
  split; [exact Hres|]. exact (entry_modtime_latest names g g' _ Hres).
Defined.

Lemma concatFiles_app fs xs ys :
  concatFiles fs (xs ++ ys) = (concatFiles fs xs ++ concatFiles fs ys)%list.
Proof. unfold concatFiles. now rewrite map_app, concat_app. Qed.

Lemma latestModTime_max fs names t :
  latestModTime fs names t = Z.max t (latestModTime fs names time.zero) \/ t < time.zero.
Proof.
  destruct (Z.lt_ge_cases t time.zero) as [Hlt|Hge]; [now right|left].
  revert t Hge. unfold time.zero. induction names as [|n names IH]; intros t Hge.
  - cbn. lia.
  - cbn [latestModTime fold_left].
    fold (latestModTime fs names (later t (fileModTime fs n))).
    fold (latestModTime fs names (later 0 (fileModTime fs n))).
    rewrite !later_max.
    rewrite (IH (Z.max t (fileModTime fs n))) by (name_times; lia).
    rewrite (IH (Z.max 0 (fileModTime fs n))) by (name_times; lia).
    name_times. lia.
Qed.

(** Resolving a list made of two lists stores the bytes of the first
    followed by the bytes of the second, under the later of the two
    modification times. *)
Theorem resolve_append (xs ys : list string) (g g' : Globals) (url : string) :
  CombinedURL (xs ++ ys) g = ((url, None), g') ->
  exists ux uy cx cy c,
    fst (CombinedURL xs g) = (ux, None)
    /\ fst (CombinedURL ys g) = (uy, None)
    /\ cache (snd (CombinedURL xs g)) !! hexS_of (concatFiles (fileSystem g) xs) = Some cx
    /\ cache (snd (CombinedURL ys g)) !! hexS_of (concatFiles (fileSystem g) ys) = Some cy
    /\ cache g' !! hexS_of (Content cx ++ Content cy)%list = Some c
    /\ Content c = (Content cx ++ Content cy)%list
    /\ ModTime c = later (ModTime cx) (ModTime cy).
Proof.
  intros Hres. pose proof (CombinedURL_success _ _ _ _ Hres) as Hall.
  apply Forall_app in Hall as [Hxs Hys].
  destruct (CombinedURL_resolved _ _ _ _ Hres) as [_ ->].
  rewrite (CombinedURL_ok xs g Hxs), (CombinedURL_ok ys g Hys). cbv zeta. cbn [fst snd].
  do 5 eexists. split; [reflexivity|]. split; [reflexivity|].
  split; [apply lookup_insert_eq|]. split; [apply lookup_insert_eq|].
  cbn [Content ModTime]. rewrite concatFiles_app.
  split; [apply lookup_insert_eq|]. split; [reflexivity|].
  cbn [ModTime]. unfold latestModTime at 1. rewrite fold_left_app.
  fold (latestModTime (fileSystem g) xs time.zero).
  fold (latestModTime (fileSystem g) ys (latestModTime (fileSystem g) xs time.zero)).
  rewrite later_max.
  pose proof (latestModTime_ge (fileSystem g) xs time.zero).
  destruct (latestModTime_max (fileSystem g) ys (latestModTime (fileSystem g) xs time.zero))
    as [Hmax|Hneg]; [exact Hmax|].
  unfold time.zero in *. exfalso. revert H Hneg. name_times. lia.
Qed.

Lemma resolve_append_witness :
  let g := globals0 fs_ab in
  let g' := snd (CombinedURL (["a.js"] ++ ["js/b.js"]) g) in
  CombinedURL (["a.js"] ++ ["js/b.js"]) g = (("/static/c20ad4d76f/a.js-b.js", None), g')
  /\ exists c, cache g' !! "c20ad4d76f" = Some c
               /\ Content c = bytes_of_string "12"
               /\ ModTime c = date_1994 + time.Hour.
Proof.
  intros g g'.
  assert (Hres : CombinedURL (["a.js"] ++ ["js/b.js"]) g
                 = (("/static/c20ad4d76f/a.js-b.js", None), g'))
    by (vm_compute; reflexivity).
  split; [exact Hres|].
  destruct (resolve_append ["a.js"] ["js/b.js"] g g' _ Hres)
    as (ux & uy & cx & cy & c & _ & _ & Hx & Hy & Hc & Hcontent & Hmt).
  vm_compute in Hx. injection Hx as <-. vm_compute in Hy. injection Hy as <-.
  exists c. split; [exact Hc|]. split; [exact Hcontent | exact Hmt].
Defined.

(** The error returned is that of the first file, in list order, that
    cannot be opened, stat'd or read, whatever the files after it. *)
Theorem first_error_wins (pre post : list string) (n : string) (err : error) (g : Globals) :
  Forall (fun m => fileError (fileSystem g) m = None) pre ->
  fileError (fileSystem g) n = Some err ->
  CombinedURL (pre ++ n :: post) g = (("", Some err), g).
Proof.
  intros Hpre Hn. unfold CombinedURL, bind, gets.
  rewrite (loop_err _ _ _ _ _ _ _ Hpre Hn). reflexivity.
Qed.

Lemma first_error_wins_witness :
  let g := globals0 fs_faulty in
  Forall (fun m => fileError (fileSystem g) m = None) ["a.js"]
  /\ fileError (fileSystem g) "torn.js" = Some "read torn.js: unexpected EOF"
  /\ CombinedURL (["a.js"] ++ "torn.js" :: ["locked.js"; "nostat.js"]) g
     = (("", Some "read torn.js: unexpected EOF"), g).
Proof.
  intros g.
  assert (Hpre : Forall (fun m => fileError (fileSystem g) m = None) ["a.js"])
    by (repeat constructor).
  assert (Hn : fileError (fileSystem g) "torn.js" = Some "read torn.js: unexpected EOF")
    by (vm_compute; reflexivity).
  split; [exact Hpre|]. split; [exact Hn|].
  exact (first_error_wins ["a.js"] ["locked.js"; "nostat.js"] "torn.js" _ g Hpre Hn).
Defined.

Lemma CombinedURL_url_plain_witness :
  let names := ["a.js"; "js/b.js"] in
  let g := globals0 fs_ab in
  let url := "/static/c20ad4d76f/a.js-b.js" in
  (CombinedURL names g = ((url, None), snd (CombinedURL names g))
   /\ plain_elem (joinBasenames names) = true)
  /\ url = Path ++ hexS_of (concatFiles (fileSystem g) names) ++ "/" ++ joinBasenames names.
Proof.
  intros names g url.
  assert (Hres : CombinedURL names g = ((url, None), snd (CombinedURL names g)))
    by (vm_compute; reflexivity).
  assert (Hplain : plain_elem (joinBasenames names) = true) by (vm_compute; reflexivity).
  split; [auto|]. exact (CombinedURL_url_plain names g url _ Hres Hplain).
Defined.

(** ** Base names *)

Lemma trim_slash_free b : slash_free b = true -> filepath.trimRightSlashes b = b.
Proof.
  induction b as [|c b IH]; [reflexivity|]. cbn [slash_free filepath.trimRightSlashes].
  intros [Hc Hb]%andb_prop. apply negb_true_iff in Hc. now rewrite Hc, (IH Hb).
Qed.

Lemma trim_app d b :
  slash_free b = true -> b <> "" -> filepath.trimRightSlashes (d ++ b) = d ++ b.
Proof.
  intros Hb Hne. induction d as [|c d IH].
  - now apply trim_slash_free.
  - change (String c d ++ b) with (String c (d ++ b)).
    cbn [filepath.trimRightSlashes]. rewrite IH.
    destruct (d ++ b) eqn:Hdb.
    + destruct d; [now subst|discriminate].
    + now rewrite andb_false_r.
Qed.

Lemma append_assoc (a b c : string) : (a ++ b) ++ c = a ++ b ++ c.
Proof.
  induction a as [|x a IH]; [reflexivity|].
  change ((String x a ++ b) ++ c) with (String x ((a ++ b) ++ c)). now rewrite IH.
Qed.

Lemma Base_slash_free b : slash_free b = true -> b <> "" -> filepath.Base b = b.
Proof.
  intros Hb Hne. unfold filepath.Base.
  destruct (String.eqb_spec b ""); [contradiction|].
  rewrite (trim_slash_free _ Hb), (Split_slash_free _ Hb). cbn [List.last].
  destruct (String.eqb_spec b ""); [contradiction | reflexivity].
Qed.

Lemma Base_in_dir d b :
  slash_free b = true -> b <> "" -> filepath.Base (d ++ "/" ++ b) = b.
Proof.
  intros Hb Hne. unfold filepath.Base.
  destruct (String.eqb_spec (d ++ "/" ++ b) "") as [Heq|_].
  - destruct d; discriminate.
  - rewrite <- append_assoc, (trim_app _ _ Hb Hne), append_assoc.
    change ("/" ++ b) with (String path.slash b).
    rewrite Split_app_slash, (Split_slash_free _ Hb), last_last.
    destruct (String.eqb_spec b ""); [contradiction | reflexivity].
Qed.

(** The directories of the names do not show in the joined base names:
    for file names proper (non-empty, without a slash) given with or
    without a directory in front, [joinBasenames] is the file names joined
    by hyphens. *)
Theorem joinBasenames_strips_directories (names files : list string) :
  Forall2 (fun n f => slash_free f = true /\ f <> ""
                      /\ (n = f \/ exists d, n = d ++ "/" ++ f)) names files ->
  joinBasenames names = strings.Join files "-".
Proof.
  intros Hall. unfold joinBasenames. f_equal.
  induction Hall as [|n f names files (Hsf & Hne & Hn) _ IH]; [reflexivity|].
  cbn [map]. rewrite IH. f_equal.
  destruct Hn as [->|[d ->]]; [now apply Base_slash_free | now apply Base_in_dir].
Qed.

Lemma joinBasenames_strips_directories_witness :
  let names := ["css/site/app.css"; "print.css"; "/abs/ie.css"] in
  let files := ["app.css"; "print.css"; "ie.css"] in
  Forall2 (fun n f => slash_free f = true /\ f <> ""
                      /\ (n = f \/ exists d, n = d ++ "/" ++ f)) names files
  /\ joinBasenames names = "app.css-print.css-ie.css".
Proof.
  intros names files.
  assert (Hall : Forall2 (fun n f => slash_free f = true /\ f <> ""
                      /\ (n = f \/ exists d, n = d ++ "/" ++ f)) names files).
  { constructor; [|constructor; [|constructor; [|constructor]]];
      (split; [reflexivity | split; [discriminate|]]).
    - right. now exists "css/site".
    - now left.
    - right. now exists "/abs". }
  split; [exact Hall|]. exact (joinBasenames_strips_directories names files Hall).
Defined.

(** ** The digest *)

Lemma hexdigit_lower_hex (b : byte) :
  lower_hex (hexdigit (Byte.to_N b / 16)) = true
  /\ lower_hex (hexdigit (Byte.to_N b mod 16)) = true.
Proof. destruct b; vm_compute; split; reflexivity. Qed.

Lemma hex_prefix_lower (l : bytes) :
  (5 <= length l)%nat ->
  Forall (fun c => lower_hex c = true) (list_ascii_of_string (substring 0 10 (hex l))).
Proof.
  destruct l as [|b0 [|b1 [|b2 [|b3 [|b4 l]]]]]; simpl length; try lia. intros _.
  cbn [hex substring].
  replace (substring 0 0 (hex l)) with "" by (now destruct (hex l)).
  cbn [list_ascii_of_string].
  repeat (constructor; [first [apply hexdigit_lower_hex]|]). constructor.
Qed.

(** The key under which a resolution stores its entry, and which the URL
    carries, is ten characters long, each a decimal digit or a letter from
    a to f; the entry under it holds the bytes of the files. *)
Theorem digest_ten_hex (names : list string) (g g' : Globals) (url : string) :
  CombinedURL names g = ((url, None), g') ->
  exists d ce,
    url = path.Join [Path; d; joinBasenames names]
    /\ cache g' !! d = Some ce
    /\ Content ce = concatFiles (fileSystem g) names
    /\ String.length d = 10%nat
    /\ Forall (fun c => lower_hex c = true) (list_ascii_of_string d).
Proof.
  intros Hres. destruct (CombinedURL_resolved _ _ _ _ Hres) as [-> ->].
  do 2 eexists. split; [reflexivity|]. split; [apply lookup_insert_eq|].
  split; [reflexivity|]. split; [apply hexS_length|].
  apply hex_prefix_lower. rewrite sum_length. lia.
Qed.

Lemma digest_ten_hex_witness :
  let names := ["a.js"; "js/b.js"] in
  let g := globals0 fs_ab in
  let url := "/static/c20ad4d76f/a.js-b.js" in
  CombinedURL names g = ((url, None), snd (CombinedURL names g))
  /\ exists d ce,
       url = path.Join [Path; d; joinBasenames names]
       /\ cache (snd (CombinedURL names g)) !! d = Some ce
       /\ Content ce = concatFiles (fileSystem g) names
       /\ String.length d = 10%nat
       /\ Forall (fun c => lower_hex c = true) (list_ascii_of_string d).
Proof.
  intros names g url.
  assert (Hres : CombinedURL names g = ((url, None), snd (CombinedURL names g)))
    by (vm_compute; reflexivity).
  split; [exact Hres|]. exact (digest_ten_hex names g _ url Hres).
Defined.

(** A resolution succeeds exactly when every file of the list can be
    opened, stat'd and read to its end. *)
Theorem resolution_succeeds_iff (names : list string) (g : Globals) :
  (exists url g', CombinedURL names g = ((url, None), g'))
  <-> Forall (fun n => fileError (fileSystem g) n = None) names.
Proof.
  split.
  - intros (url & g' & Hres). exact (CombinedURL_success _ _ _ _ Hres).
  - intros Hall. do 2 eexists. exact (CombinedURL_ok _ _ Hall).
Qed.

(** * Further properties of the dispatcher *)

Lemma prefix_app pre s : String.prefix pre s = true -> exists q, s = pre ++ q.
Proof.
  revert s. induction pre as [|a pre IH]; intros s Hp.
  - now exists s.
  - destruct s as [|b s]; [discriminate|]. cbn [String.prefix] in Hp.
    destruct (ascii_dec a b) as [->|]; [|discriminate].
    destruct (IH _ Hp) as [q ->]. now exists q.
Qed.

Lemma Split_with_prefix p :
  strings.HasPrefix p Path = true ->
  exists q, p = Path ++ q
            /\ strings.Split p path.slash = "" :: "static" :: strings.Split q path.slash.
Proof.
  intros [q ->]%prefix_app. exists q. split; [reflexivity|].
  change (Path ++ q) with ("" ++ String path.slash ("static" ++ String path.slash q)).
  now rewrite !Split_app_slash.
Qed.

(** A path with the static prefix always has three elements or more, so
    that a digest segment (possibly the empty string) is always there to
    look up: after the test of the prefix, the test of the number of
    elements never sends a request to [notFound]. *)
Theorem prefix_gives_digest_segment (p : string) :
  strings.HasPrefix p Path = true ->
  (3 <= length (strings.Split p "/"))%nat
  /\ exists q, p = Path ++ q
               /\ digest_segment p = Some (hd "" (strings.Split q "/")).
Proof.
  intros Hp. destruct (Split_with_prefix p Hp) as (q & Hq & Hsplit).
  change "/"%char with path.slash. unfold digest_segment.
  change "/"%char with path.slash. rewrite Hsplit.
  pose proof (Split_nonempty q path.slash) as Hne.
  destruct (strings.Split q path.slash) as [|e es] eqn:Hes; [contradiction|].
  split; [cbn; lia|]. exists q. split; [exact Hq | now rewrite Hes].
Qed.

Lemma prefix_gives_digest_segment_witness :
  strings.HasPrefix "/static/" Path = true
  /\ (3 <= length (strings.Split "/static/" "/"))%nat
  /\ digest_segment "/static/" = Some "".
Proof.
  assert (Hp : strings.HasPrefix "/static/" Path = true) by (vm_compute; reflexivity).
  split; [exact Hp|].
  destruct (prefix_gives_digest_segment "/static/" Hp) as [Hlen _].
  split; [exact Hlen | reflexivity].
Defined.

(** While the cache table is empty, as it is when the process starts,
    every request is answered with the not-found outcome, also one for a
    URL that an earlier process handed out. *)
Theorem Handle_empty_table `{Platform} (w : http.ResponseWriter) (r : http.Request)
    (g : Globals) :
  cache g = ∅ ->
  http.Code w = None -> http.Body w = [] ->
  let w' := fst (Handle w r g) in
  http.Code w' = Some 404
  /\ http.RespHeader w' !! "Cache-Control" = Some "no-cache"
  /\ http.RespHeader w' !! "Pragma" = Some "no-cache"
  /\ http.Body w' = bytes_of_string "static resource not found!".
Proof.
  intros Hempty Hcode Hbody.
  rewrite Handle_miss; [now apply notFound_response|].
  destruct (strings.HasPrefix (http.URLPath r) Path) eqn:Hp; [|now left].
  right; right. destruct (Split_with_prefix _ Hp) as (q & _ & Hsplit).
  unfold digest_segment. change "/"%char with path.slash. rewrite Hsplit.
  pose proof (Split_nonempty q path.slash) as Hne.
  destruct (strings.Split q path.slash) as [|e es]; [contradiction|].
  exists e. split; [reflexivity|]. rewrite Hempty. apply lookup_empty.
Qed.

Lemma Handle_empty_table_witness :
  let g := globals0 fs_ab in
  let r := GET "/static/c20ad4d76f/a.js-b.js" in
  cache g = ∅
  /\ http.Code (fst (Handle fresh r g)) = Some 404
  /\ http.Body (fst (Handle fresh r g)) = bytes_of_string "static resource not found!".
Proof.
  intros g r. split; [reflexivity|].
  destruct (Handle_empty_table fresh r g eq_refl eq_refl eq_refl) as (Hc & _ & _ & Hb).
  split; [exact Hc | exact Hb].
Defined.

(** * The cache-less revision (src/unnamed/part_000) *)

Lemma Join_Split s : strings.Join (strings.Split s path.slash) "/" = s.
Proof.
  induction s as [|c s IH]; [reflexivity|]. cbn [strings.Split].
  pose proof (Split_nonempty s path.slash) as Hne.
  destruct (Ascii.eqb_spec c path.slash) as [->|Hc].
  - destruct (strings.Split s path.slash) as [|e es]; [contradiction|].
    change (strings.Join ("" :: e :: es) "/") with (String path.slash (strings.Join (e :: es) "/")).
    now rewrite IH.
  - destruct (strings.Split s path.slash) as [|e es]; [contradiction|].
    rewrite <- IH. now destruct es.
Qed.

Section DirectHandle.
Context `{Platform}.


(** What [Direct.Handle] does with a path that has the prefix. *)
Lemma Direct_Handle_prefixed w r g q :
  http.URLPath r = Path ++ q ->
  Direct.Handle w r g =
  (match fileSystem g (strings.Join (tl (strings.Split q path.slash)) "/") with
   | inl _ => notFound w r
   | inr f =>
       match http.Stat f with
       | inl _ => notFound w r
       | inr d =>
           if os.IsDir d then notFound w r
           else http.ServeContent
                  (http.Set_ w "Cache-Control"
                     ("public, max-age=" ++ itoa (whole_seconds (cacheMaxAge g))))
                  r (os.Name d) (os.ModTime d) (fst (http.ReadAll f))
       end
   end, g).
Proof.
  intros Hq. unfold Direct.Handle.
  assert (Hp : strings.HasPrefix (http.URLPath r) Path = true)
    by (rewrite Hq; apply HasPrefix_app).
  destruct (Split_with_prefix _ Hp) as (q' & Hq' & Hsplit).
  assert (q' = q) as ->.
  { rewrite Hq in Hq'. clear -Hq'. unfold Path in Hq'. now injection Hq'. }
  rewrite Hp. cbn [negb]. change "/"%char with path.slash. rewrite Hsplit.
  pose proof (Split_nonempty q path.slash) as Hne.
  destruct (strings.Split q path.slash) as [|e es]; [contradiction|].
  cbn [length Nat.ltb Nat.leb skipn tl]. unfold bind, gets, ret.
  destruct (fileSystem g _) as [err|f]; [reflexivity|].
  destruct (http.Stat f) as [err|d]; [reflexivity|].
  destruct (os.IsDir d); reflexivity.
Qed.

End DirectHandle.



(** In the cache-less revision a request is answered with the not-found
    outcome when the file named by the segments after the digest cannot
    be opened or stat'd, or is a directory. *)
Theorem Direct_not_found `{Platform} (w : http.ResponseWriter) (r : http.Request)
    (g : Globals) (q : string) :
  http.Code w = None -> http.Body w = [] ->
  http.URLPath r = Path ++ q ->
  let newPath := strings.Join (tl (strings.Split q "/")) "/" in
  (exists err, fileSystem g newPath = inl err)
  \/ (exists f, fileSystem g newPath = inr f
                /\ ((exists err, http.Stat f = inl err)
                    \/ exists d, http.Stat f = inr d /\ os.IsDir d = true)) ->
  let w' := fst (Direct.Handle w r g) in
  http.Code w' = Some 404
  /\ http.RespHeader w' !! "Cache-Control" = Some "no-cache"
  /\ http.RespHeader w' !! "Pragma" = Some "no-cache"
  /\ http.Body w' = bytes_of_string "static resource not found!".
Proof.
  intros Hcode Hbody Hq newPath Hbad.
  rewrite (Direct_Handle_prefixed w r g q Hq). cbn [fst].
  subst newPath. unfold path.slash.
  destruct Hbad as [[err ->]|(f & -> & [[err ->]|(d & -> & ->)])];
    now apply notFound_response.
Qed.

Lemma Direct_not_found_witness :
  let g := globals0 fs_faulty in
  let r := GET "/static/0123456789/js" in
  http.URLPath r = Path ++ "0123456789/js"
  /\ (exists f d, fileSystem g "js" = inr f /\ http.Stat f = inr d /\ os.IsDir d = true)
  /\ http.Code (fst (Direct.Handle fresh r g)) = Some 404.
Proof.
  intros g r.
  assert (Hbad : exists f, fileSystem g "js" = inr f
                /\ ((exists err, http.Stat f = inl err)
                    \/ exists d, http.Stat f = inr d /\ os.IsDir d = true)).
  { eexists. split; [vm_compute; reflexivity|]. right. eexists. split; reflexivity. }
  split; [reflexivity|]. split.
  - destruct Hbad as (f & Hf & [[err Herr]|(d & Hd & Hdir)]).
    + vm_compute in Hf. injection Hf as <-. discriminate.
    + now exists f, d.
  - exact (proj1 (Direct_not_found fresh r g "0123456789/js" eq_refl eq_refl eq_refl
                    (or_intror Hbad))).
Defined.

(** Round trip in the cache-less revision: for a name that is a clean
    relative path (elements without ".", ".." or empty ones) of a regular
    file, a plain GET of the URL that [Direct.URL] returns is answered 200
    with the bytes that were hashed, as long as the file is as it was. *)
Theorem Direct_round_trip `{Platform} (name url : string) (g g' : Globals)
    (f : http.File) (d : os.FileInfo) :
  Forall (fun e => plain_elem e = true) (strings.Split name "/") ->
  Direct.URL name g = ((url, None), g') ->
  fileSystem g name = inr f ->
  http.Stat f = inr d -> os.IsDir d = false ->
  let w' := fst (Direct.Handle fresh (GET url) g') in
  g' = g
  /\ url = Path ++ hexS_of (fst (http.ReadAll f)) ++ "/" ++ name
  /\ http.Code w' = Some 200
  /\ http.Body w' = fst (http.ReadAll f).
Proof.
  change "/"%char with path.slash. intros Hplain Hres Hf Hst Hdir.
  unfold Direct.URL, bind, gets in Hres. rewrite Hf in Hres.
  destruct (http.ReadAll f) as [content [err|]] eqn:Hrd; [discriminate|].
  cbn [hash.Write] in Hres. unfold ret in Hres. injection Hres as <- <-.
  cbn [fst]. change (substring 0 10 (hex (hash.Sum _ []))) with (hexS_of content).
  assert (Hkept : kept (strings.Split name path.slash) = strings.Split name path.slash).
  { unfold kept. apply forallb_filter_id, forallb_forall. intros e He.
    rewrite Forall_forall in Hplain.
    destruct (plain_elem_spec e (Hplain e (proj2 (list_elem_of_In _ _) He)))
      as (_ & -> & -> & _). reflexivity. }
  assert (Hurl : path.Join [Path; hexS_of content; name]
                 = Path ++ hexS_of content ++ "/" ++ name).
  { rewrite Join_url; [|apply hexS_plain|].
    - rewrite Hkept.
      change (strings.Join ("" :: "static" :: hexS_of content
                            :: strings.Split name path.slash) "/")
        with (Path ++ strings.Join (hexS_of content :: strings.Split name path.slash) "/").
      pose proof (Split_nonempty name path.slash) as Hne.
      destruct (strings.Split name path.slash) as [|e es] eqn:Hsp; [contradiction|].
      change (strings.Join (hexS_of content :: e :: es) "/")
        with (hexS_of content ++ "/" ++ strings.Join (e :: es) "/").
      now rewrite <- Hsp, Join_Split.
    - eapply List.Forall_impl; [|exact Hplain]. intros e He Heq.
      apply plain_elem_spec in He as (_ & _ & _ & He). rewrite Heq in He. discriminate. }
  rewrite Hurl. split; [reflexivity|]. split; [reflexivity|].
  rewrite (Direct_Handle_prefixed fresh (GET (Path ++ hexS_of content ++ "/" ++ name)) g
             (hexS_of content ++ "/" ++ name) eq_refl).
  change ("/" ++ name) with (String path.slash name).
  destruct (plain_elem_spec _ (hexS_plain content)) as (Hsf & _).
  rewrite Split_app_slash, (Split_slash_free _ Hsf). cbn [app tl fst].
  rewrite Join_Split, Hf, Hst, Hdir, Hrd. cbn [fst].
  destruct (ServeContent_plain
              (http.Set_ fresh "Cache-Control"
                 ("public, max-age=" ++ itoa (whole_seconds (cacheMaxAge g))))
              (GET (Path ++ hexS_of content ++ String path.slash name))
              (os.Name d) (os.ModTime d) content) as (Hc & Hb & _);
    try reflexivity; [discriminate | apply GET_unconditional |].
  split; [exact Hc | exact Hb].
Qed.

Lemma Direct_round_trip_witness :
  let g := globals0 fs_ab in
  let url := "/static/c81e728d9d/js/b.js" in
  let w' := fst (Direct.Handle fresh (GET url) g) in
  (Forall (fun e => plain_elem e = true) (strings.Split "js/b.js" "/")
   /\ Direct.URL "js/b.js" g = ((url, None), g))
  /\ http.Code w' = Some 200
  /\ http.Body w' = bytes_of_string "2".
Proof.
  intros g url w'.
  assert (Hplain : Forall (fun e => plain_elem e = true) (strings.Split "js/b.js" "/"))
    by (repeat constructor).
  assert (Hres : Direct.URL "js/b.js" g = ((url, None), g)) by (vm_compute; reflexivity).
  split; [auto|].
  destruct (Direct_round_trip "js/b.js" url g g
              (regular "b.js" (date_1994 + time.Hour) "2")
              {| os.Name := "b.js"; os.ModTime := date_1994 + time.Hour; os.IsDir := false |}
              Hplain Hres) as (_ & _ & Hc & Hb);
    [vm_compute; reflexivity | reflexivity | reflexivity |].
  split; [exact Hc | exact Hb].
Defined.

(** * The markup helpers *)

(** Once a helper holds a node, and while flag static.cache is on, its
    [HTML] returns that node without resolving anything: the receiver and
    the package-level variables stay as they are, whatever has become of
    the files. *)
Theorem HTML_memoized (g g2 : Globals) :
  cacheEnable g2 = true ->
  (forall l l' node g',
     LinkStyle.HTML l g = ((l', (Some node, None)), g') ->
     LinkStyle.HTML l' g2 = ((l', (Some node, None)), g2))
  /\ (forall s s' node g',
        Script.HTML s g = ((s', (Some node, None)), g') ->
        Script.HTML s' g2 = ((s', (Some node, None)), g2))
  /\ (forall i i' node g',
        Img.HTML i g = ((i', (Some node, None)), g') ->
        Img.HTML i' g2 = ((i', (Some node, None)), g2)).
Proof.
  intros Hon. split; [|split].
  - intros l l' node g'. unfold LinkStyle.HTML, bind, gets, ret. rewrite Hon. cbn [negb orb].
    destruct (negb (cacheEnable g) || _).
    + destruct (CombinedURL _ g) as [[url [err|]] g1]; [discriminate|].
      intros Heq. injection Heq as <- <- <-. reflexivity.
    + intros Heq. injection Heq as <- Hnode <-. now rewrite Hnode.
  - intros s s' node g'. unfold Script.HTML, bind, gets, ret. rewrite Hon. cbn [negb orb].
    destruct (negb (cacheEnable g) || _).
    + destruct (CombinedURL _ g) as [[url [err|]] g1]; [discriminate|].
      intros Heq. injection Heq as <- <- <-. reflexivity.
    + intros Heq. injection Heq as <- Hnode <-. now rewrite Hnode.
  - intros i i' node g'. unfold Img.HTML, bind, gets, ret. rewrite Hon. cbn [negb orb].
    destruct (negb (cacheEnable g) || _).
    + destruct (URL _ g) as [[url [err|]] g1]; [discriminate|].
      intros Heq. injection Heq as <- <- <-. reflexivity.
    + intros Heq. injection Heq as <- Hnode <-. now rewrite Hnode.
Qed.

Lemma HTML_memoized_witness :
  let l := {| LinkStyle.HREF := ["a.js"; "js/b.js"]; LinkStyle.cache := None |} in
  let node := h.LinkStyle "/static/c20ad4d76f/a.js-b.js" in
  let l' := {| LinkStyle.HREF := ["a.js"; "js/b.js"]; LinkStyle.cache := Some node |} in
  let g := globals0 fs_ab in
  let g2 := globals0 no_files in
  (cacheEnable g2 = true
   /\ LinkStyle.HTML l g = ((l', (Some node, None)), snd (LinkStyle.HTML l g)))
  /\ LinkStyle.HTML l' g2 = ((l', (Some node, None)), g2).
Proof.
  intros l node l' g g2.
  assert (Hfirst : LinkStyle.HTML l g = ((l', (Some node, None)), snd (LinkStyle.HTML l g)))
    by (vm_compute; reflexivity).
  split; [split; [reflexivity | exact Hfirst]|].
  exact (proj1 (HTML_memoized g g2 eq_refl) l l' node _ Hfirst).
Defined.

(** When a helper has to resolve (flag static.cache off, or no node held
    yet) and a file fails, [HTML] returns no node but the error of the
    first failing file; the node held before, if any, and the
    package-level variables stay as they are. *)
Theorem HTML_failure (g : Globals) (pre post : list string) (n : string) (err : error) :
  Forall (fun m => fileError (fileSystem g) m = None) pre ->
  fileError (fileSystem g) n = Some err ->
  (forall l, LinkStyle.HREF l = (pre ++ n :: post)%list ->
             cacheEnable g = false \/ LinkStyle.cache l = None ->
             LinkStyle.HTML l g = ((l, (None, Some err)), g))
  /\ (forall s, Script.Src s = (pre ++ n :: post)%list ->
                cacheEnable g = false \/ Script.cache s = None ->
                Script.HTML s g = ((s, (None, Some err)), g))
  /\ (forall i, Img.Src i = n ->
                cacheEnable g = false \/ Img.cache i = None ->
                Img.HTML i g = ((i, (None, Some err)), g)).
Proof.
  intros Hpre Hn.
  assert (Hfail : CombinedURL (pre ++ n :: post) g = (("", Some err), g)).
  { unfold CombinedURL, bind, gets. now rewrite (loop_err _ _ _ _ _ _ _ Hpre Hn). }
  assert (Hfail1 : URL n g = (("", Some err), g)).
  { unfold URL, CombinedURL, bind, gets.
    now rewrite (loop_err _ [] n [] _ _ _ (List.Forall_nil _) Hn). }
  split; [|split].
  - intros l Hl Hcond. unfold LinkStyle.HTML, bind, gets, ret.
    replace (negb (cacheEnable g) || _) with true
      by (destruct Hcond as [->| ->]; [reflexivity | now rewrite orb_true_r]).
    now rewrite Hl, Hfail.
  - intros s Hs Hcond. unfold Script.HTML, bind, gets, ret.
    replace (negb (cacheEnable g) || _) with true
      by (destruct Hcond as [->| ->]; [reflexivity | now rewrite orb_true_r]).
    now rewrite Hs, Hfail.
  - intros i Hi Hcond. unfold Img.HTML, bind, gets, ret.
    replace (negb (cacheEnable g) || _) with true
      by (destruct Hcond as [->| ->]; [reflexivity | now rewrite orb_true_r]).
    now rewrite Hi, Hfail1.
Qed.

Lemma HTML_failure_witness :
  let g := globals0 fs_faulty in
  let i := {| Img.ID := "logo"; Img.Class := ""; Img.Style := ""; Img.Src := "locked.js";
              Img.Alt := "Logo"; Img.cache := None |} in
  fileError (fileSystem g) "locked.js" = Some "open locked.js: permission denied"
  /\ Img.HTML i g = ((i, (None, Some "open locked.js: permission denied")), g).
Proof.
  intros g i.
  assert (Hn : fileError (fileSystem g) "locked.js" = Some "open locked.js: permission denied")
    by (vm_compute; reflexivity).
  split; [exact Hn|].
  exact (proj2 (proj2 (HTML_failure g [] [] "locked.js" _ (List.Forall_nil _) Hn))
           i eq_refl (or_intror eq_refl)).
Defined.

(** After [Script.HTML] has resolved the sources, [Script.URLs] returns,
    for the loader, the one URL that the node carries, and does not panic,
    as long as the files are as they were. *)
Theorem Script_URLs_after_HTML (s s' : Script.t) (g g' : Globals) (node : h.HTML) :
  cacheEnable g = false \/ Script.cache s = None ->
  Script.HTML s g = ((s', (Some node, None)), g') ->
  exists url, node = h.Script url /\ Script.URLs s' g' = (inr [url], g').
Proof.
  intros Hcond. unfold Script.HTML, Script.URLs, bind, gets, ret.
  replace (negb (cacheEnable g) || _) with true
    by (destruct Hcond as [->| ->]; [reflexivity | now rewrite orb_true_r]).
  destruct (CombinedURL (Script.Src s) g) as [[url [err|]] g1] eqn:Hres; [discriminate|].
  intros Heq. injection Heq as <- <- <-. exists url. split; [reflexivity|].
  cbn [Script.Src]. now rewrite (CombinedURL_again _ _ _ _ Hres).
Qed.

Lemma Script_URLs_after_HTML_witness :
  let s := {| Script.Src := ["a.js"; "js/b.js"]; Script.cache := None |} in
  let node := h.Script "/static/c20ad4d76f/a.js-b.js" in
  let s' := {| Script.Src := ["a.js"; "js/b.js"]; Script.cache := Some node |} in
  let g := globals0 fs_ab in
  let g' := snd (Script.HTML s g) in
  Script.HTML s g = ((s', (Some node, None)), g')
  /\ Script.URLs s' g' = (inr ["/static/c20ad4d76f/a.js-b.js"], g').
Proof.
  intros s node s' g g'.
  assert (Hres : Script.HTML s g = ((s', (Some node, None)), g')) by (vm_compute; reflexivity).
  split; [exact Hres|].
  destruct (Script_URLs_after_HTML s s' g g' node (or_intror eq_refl) Hres) as (url & Hnode & Hurls).
  injection Hnode as <-. exact Hurls.
Defined.

(** The helper of the cache-less revision keeps its node for good: once
    [HTML] has returned a node, every later call returns the same node and
    touches nothing, whatever has become of the file. *)
Theorem DirectLinkStyle_memoized (l l' : DirectLinkStyle.t) (g g' g2 : Globals)
    (node : h.HTML) :
  DirectLinkStyle.HTML l g = ((l', (Some node, None)), g') ->
  DirectLinkStyle.HTML l' g2 = ((l', (Some node, None)), g2).
Proof.
  unfold DirectLinkStyle.HTML, bind, ret.
  destruct (DirectLinkStyle.cache l) as [n0|] eqn:Hc.
  - intros Heq. injection Heq as <- <- <-. now rewrite Hc.
  - destruct (Direct.URL _ g) as [[url [err|]] g1]; [discriminate|].
    intros Heq. injection Heq as <- <- <-. reflexivity.
Qed.

Lemma DirectLinkStyle_memoized_witness :
  let l := {| DirectLinkStyle.HREF := "js/b.js"; DirectLinkStyle.cache := None |} in
  let node := h.LinkStyle "/static/c81e728d9d/js/b.js" in
  let l' := {| DirectLinkStyle.HREF := "js/b.js"; DirectLinkStyle.cache := Some node |} in
  let g := globals0 fs_ab in
  let g2 := globals0 no_files in
  DirectLinkStyle.HTML l g = ((l', (Some node, None)), g)
  /\ DirectLinkStyle.HTML l' g2 = ((l', (Some node, None)), g2).
Proof.
  intros l node l' g g2.
  assert (Hfirst : DirectLinkStyle.HTML l g = ((l', (Some node, None)), g))
    by (vm_compute; reflexivity).
  split; [exact Hfirst|].
  exact (DirectLinkStyle_memoized l l' g g g2 node Hfirst).
Defined.

(** * SetDir *)

Lemma loop_same_files fs xs ys hs ce :
  Forall2 (fun a b => fs a = fs b) xs ys ->
  CombinedURL_loop fs xs hs ce = CombinedURL_loop fs ys hs ce.
Proof.
  intros Hall. revert hs ce.
  induction Hall as [|a b xs ys Hab _ IH]; intros hs ce; [reflexivity|].
  cbn [CombinedURL_loop]. rewrite Hab.
  destruct (fs b) as [err|f]; [reflexivity|].
  destruct (http.Stat f) as [err|st]; [reflexivity|].
  destruct (http.ReadAll f) as [c [err|]]; [reflexivity|].
  cbn [hash.Write]. apply IH.
Qed.

(** Under a directory installed by [SetDir], names that clean to the
    same rooted path are one file: two lists that agree name by name up to
    cleaning resolve to the same bytes under the same digest, or fail with
    the same error, and leave the package-level variables alike. *)
Theorem SetDir_aliases (open : string -> error + http.File) (publicDir : string)
    (g : Globals) (xs ys : list string) :
  Forall2 (fun a b => path.Clean ("/" ++ a) = path.Clean ("/" ++ b)) xs ys ->
  let g' := snd (SetDir open publicDir g) in
  snd (CombinedURL xs g') = snd (CombinedURL ys g')
  /\ snd (fst (CombinedURL xs g')) = snd (fst (CombinedURL ys g'))
  /\ concatFiles (fileSystem g') xs = concatFiles (fileSystem g') ys.
Proof.
  intros Hall g'.
  assert (Hfs : Forall2 (fun a b => fileSystem g' a = fileSystem g' b) xs ys).
  { eapply List.Forall2_impl; [|exact Hall]. intros a b Hab. cbn. unfold Dir. now rewrite Hab. }
  split; [|split].
  - unfold CombinedURL, bind, gets.
    rewrite (loop_same_files _ _ _ _ _ Hfs).
    destruct (CombinedURL_loop _ ys _ _) as [err|[hs ce]]; reflexivity.
  - unfold CombinedURL, bind, gets.
    rewrite (loop_same_files _ _ _ _ _ Hfs).
    destruct (CombinedURL_loop _ ys _ _) as [err|[hs ce]]; reflexivity.
  - unfold concatFiles. f_equal. clear Hall.
    induction Hfs as [|a b xs ys Hab _ IH]; [reflexivity|].
    cbn [map]. rewrite IH. f_equal. unfold fileContent. now rewrite Hab.
Qed.

Lemma SetDir_aliases_witness :
  let xs := ["a.js/x/.."; "./js//b.js"] in
  let ys := ["a.js"; "js/b.js"] in
  let g' := snd (SetDir disk "public" (globals0 no_files)) in
  Forall2 (fun a b => path.Clean ("/" ++ a) = path.Clean ("/" ++ b)) xs ys
  /\ snd (CombinedURL xs g') = snd (CombinedURL ys g')
  /\ concatFiles (fileSystem g') xs = bytes_of_string "12".
Proof.
  intros xs ys g'.
  assert (Hall : Forall2 (fun a b => path.Clean ("/" ++ a) = path.Clean ("/" ++ b)) xs ys)
    by (repeat constructor).
  split; [exact Hall|].
  destruct (SetDir_aliases disk "public" (globals0 no_files) xs ys Hall) as (Hg & _ & Hc).
  split; [exact Hg|]. fold g' in Hc. rewrite Hc. vm_compute. reflexivity.
Defined.
